(** * Deactivation engine of desativacao-esim-rsp: a shallow embedding

    This development embeds the decision logic of the eSIM deactivation
    robot:
    - [core/business_rules.py]: [EsimRange.luhn_valid], [EsimRange.is_esim]
      and [RetryPolicy];
    - [core/esim_rsp_client.py]: [ESIMRSPClient.expire_order] and the
      transport call [_make_request] it drives;
    - [main.py]: the per-record retry loop of [_process_batch] and the
      success-rate verdict of [_process_file].

    Python strings are modelled as Rocq [string]s whose characters are the
    Latin-1 code points U+0000..U+00FF (an [ascii] is eight bits), on which
    Python's [str.isdigit], [str.isspace], [int] and string ordering are
    written out exactly.  Python floats (delays, rates, thresholds) are
    modelled as exact rationals [Q]; the overflow of the float [**] in
    [next_delay] and the range check of [time.sleep] are written out, the
    rounding of finite results is not. *)

From Stdlib Require Import String Ascii List ZArith QArith Qpower Lia Bool.
Import ListNotations.
Open Scope string_scope.

(** ** Python exceptions and results *)

(** The exception classes the embedded code raises or catches. *)
Inductive exc_class :=
| RSPClientError
| RSPClientRequestError
| RSPClientAuthenticationError
| RetryError              (** raised by tenacity around [_make_request] *)
| ValueError
| AttributeError
| OverflowError
| OtherException.

Record py_exc := mk_exc { exc_cls : exc_class; exc_msg : string }.

(** [isinstance(e, RSPClientError)]: the class and its subclasses. *)
Definition is_rsp_client_error (e : py_exc) : bool :=
  match exc_cls e with
  | RSPClientError | RSPClientRequestError | RSPClientAuthenticationError => true
  | _ => false
  end.

(** Outcome of a Python computation: a value or a raised exception.
    [LoopBound] marks a modelled [while True] loop that ran out of its
    iteration bound; the lemmas below show it is never reached. *)
Inductive res (A : Type) :=
| Ok (a : A)
| Raise (e : py_exc)
| LoopBound.
Arguments Ok {A} a.
Arguments Raise {A} e.
Arguments LoopBound {A}.

Definition res_bind {A B} (r : res A) (k : A -> res B) : res B :=
  match r with
  | Ok a => k a
  | Raise e => Raise e
  | LoopBound => LoopBound
  end.

Notation "x <-? r ;; k" := (res_bind r (fun x => k))
  (at level 61, r at next level, right associativity).

(** ** Python strings over Latin-1 *)

Definition code (c : ascii) : nat := nat_of_ascii c.

Definition is_ascii_digit (c : ascii) : bool :=
  (48 <=? code c)%nat && (code c <=? 57)%nat.

(** [str.isdigit] on one character: the characters of Latin-1 whose
    Unicode Numeric_Type is Decimal or Digit, i.e. '0'..'9' and the
    superscripts U+00B2, U+00B3 and U+00B9. *)
Definition py_isdigit_char (c : ascii) : bool :=
  is_ascii_digit c || (code c =? 178)%nat || (code c =? 179)%nat
  || (code c =? 185)%nat.

Fixpoint all_chars (p : ascii -> bool) (s : string) : bool :=
  match s with
  | EmptyString => true
  | String c r => p c && all_chars p r
  end.

(** [str.isdigit]: false on the empty string. *)
Definition py_isdigit (s : string) : bool :=
  match s with
  | EmptyString => false
  | _ => all_chars py_isdigit_char s
  end.

(** [str.isspace] on one character, for Latin-1: U+0009..U+000D,
    U+001C..U+001F, U+0020, U+0085 and U+00A0. *)
Definition py_isspace_char (c : ascii) : bool :=
  let n := code c in
  ((9 <=? n)%nat && (n <=? 13)%nat) || ((28 <=? n)%nat && (n <=? 31)%nat)
  || (n =? 32)%nat || (n =? 133)%nat || (n =? 160)%nat.

Fixpoint lstrip (s : string) : string :=
  match s with
  | EmptyString => EmptyString
  | String c r => if py_isspace_char c then lstrip r else s
  end.

Fixpoint rev_str (s : string) (acc : string) : string :=
  match s with
  | EmptyString => acc
  | String c r => rev_str r (String c acc)
  end.

(** [str.strip()] with no argument. *)
Definition py_strip (s : string) : string :=
  rev_str (lstrip (rev_str (lstrip s) EmptyString)) EmptyString.

(** Python's [<] on strings: lexicographic order of code points, a proper
    prefix being smaller. *)
Fixpoint str_lt (a b : string) : bool :=
  match a, b with
  | EmptyString, EmptyString => false
  | EmptyString, String _ _ => true
  | String _ _, EmptyString => false
  | String c r, String d t =>
      if (code c <? code d)%nat then true
      else if (code d <? code c)%nat then false
      else str_lt r t
  end.

Definition str_le (a b : string) : bool := str_lt a b || String.eqb a b.

(** [s[:-1]]. *)
Fixpoint drop_last (s : string) : string :=
  match s with
  | EmptyString => EmptyString
  | String _ EmptyString => EmptyString
  | String c r => String c (drop_last r)
  end.

(** [int(ch)] on a single character. *)
Definition py_int_char (c : ascii) : res Z :=
  if is_ascii_digit c then Ok (Z.of_nat (code c - 48))
  else Raise (mk_exc ValueError "invalid literal for int() with base 10").

Fixpoint digits_value (s : string) (acc : Z) : res Z :=
  match s with
  | EmptyString => Ok acc
  | String c r => d <-? py_int_char c ;; digits_value r (10 * acc + d)
  end.

(** [int(s)] on a string that has passed [str.isdigit] (so it holds no sign,
    space or underscore): it succeeds iff every character is a decimal
    digit. *)
Definition py_int_digits (s : string) : res Z := digits_value s 0.

(** [str(n)] for a Python [int]. *)
Fixpoint digits_of_pos (fuel : nat) (p : positive) (acc : string) : string :=
  match fuel with
  | O => acc
  | S f =>
      let q := Z.div (Zpos p) 10 in
      let r := Z.modulo (Zpos p) 10 in
      let acc' := String (ascii_of_nat (48 + Z.to_nat r)) acc in
      match q with
      | Zpos q' => digits_of_pos f q' acc'
      | _ => acc'
      end
  end.

Definition py_str_int (z : Z) : string :=
  match z with
  | Z0 => "0"
  | Zpos p => digits_of_pos (Pos.size_nat p) p EmptyString
  | Zneg p => String "-" (digits_of_pos (Pos.size_nat p) p EmptyString)
  end.

(** ** [EsimRange] *)

(** A value stored in [EsimRange.start]/[end]: [rules_from_config] stores
    [int]s, a caller may also store strings. *)
Inductive pyval := PyInt (z : Z) | PyStr (s : string).

Definition py_str_val (v : pyval) : string :=
  match v with PyInt z => py_str_int z | PyStr s => s end.

Record EsimRange := mk_range { start : pyval; end_ : pyval }.

Fixpoint luhn_loop (parity i : nat) (s : string) (total : Z) : res Z :=
  match s with
  | EmptyString => Ok total
  | String ch r =>
      d <-? py_int_char ch ;;
      let d := if (Nat.modulo i 2 =? parity)%nat
               then (if 9 <? 2 * d then 2 * d - 9 else 2 * d)%Z
               else d in
      luhn_loop parity (S i) r (total + d)%Z
  end.

(** [EsimRange.luhn_valid]. *)
Definition luhn_valid (num_str : string) : res bool :=
  if negb (py_isdigit num_str) then Ok false
  else
    total <-? luhn_loop (Nat.modulo (String.length num_str) 2) 0 num_str 0 ;;
    Ok (Z.modulo total 10 =? 0)%Z.

(** [str(getattr(self, "start", "")).strip()] and the same for [end]. *)
Definition range_start_s (rg : EsimRange) : string := py_strip (py_str_val (start rg)).
Definition range_end_s (rg : EsimRange) : string := py_strip (py_str_val (end_ rg)).

(** [EsimRange.is_esim]; [None] is Python's [None]. *)
Definition is_esim (rg : EsimRange) (iccid : option string) : res bool :=
  match iccid with
  | None | Some EmptyString => Ok false
  | Some raw =>
      let iccid_s := py_strip raw in
      if negb (py_isdigit iccid_s) then Ok false
      else
        let start_s := range_start_s rg in
        let end_s := range_end_s rg in
        if negb (py_isdigit start_s && py_isdigit end_s) then Ok false
        else if (String.length iccid_s =? String.length start_s)%nat
                && (String.length start_s =? String.length end_s)%nat
        then Ok (str_le start_s iccid_s && str_le iccid_s end_s)
        else
          lv <-? (if (String.length iccid_s =? String.length start_s + 1)%nat
                  then luhn_valid iccid_s else Ok false) ;;
          if lv then
            let candidate := drop_last iccid_s in
            Ok (str_le start_s candidate && str_le candidate end_s)
          else
            match py_int_digits iccid_s, py_int_digits start_s,
                  py_int_digits end_s with
            | Ok iccid_i, Ok start_i, Ok end_i =>
                Ok ((start_i <=? iccid_i) && (iccid_i <=? end_i))%Z
            | _, _, _ => Ok false
            end
  end.


(** The default range of [rules_from_config]. *)
Definition default_range : EsimRange :=
  mk_range (PyInt 89238010000101000000%Z) (PyInt 89238010000101999999%Z).

(** ** [RetryPolicy] *)

Record RetryPolicy := mk_policy {
  max_attempts : Z;
  delay_seconds : Q;
  backoff_factor : Q
}.

(** [RetryPolicy.can_retry]. *)
Definition can_retry (p : RetryPolicy) (attempt : Z) : bool :=
  (attempt <? max_attempts p)%Z.

(** The float [**] of [next_delay]: CPython's [float_pow] raises
    [OverflowError] when [pow] overflows, i.e. when the exact power
    reaches [2^1024 - 2^970] in absolute value, the bound from which it
    rounds to infinity (the largest double is [(2^53 - 1) * 2^971]).  The
    rounding of finite results is not modelled. *)
Definition float_overflow : Q := inject_Z (2 ^ 1024 - 2 ^ 970).

Definition pow_overflows (x : Q) : bool :=
  Qle_bool float_overflow x || Qle_bool x (- float_overflow).

Definition pow_overflow_msg : string := "(34, 'Numerical result out of range')".

(** [RetryPolicy.next_delay]: [float(delay_seconds) * (float(backoff_factor)
    ** (attempt - 1))].  A product beyond the double range is [inf] in
    Python; here it stays the exact product, which [time.sleep] rejects in
    the same way (see [py_sleep]). *)
Definition next_delay (p : RetryPolicy) (attempt : Z) : res Q :=
  let attempt := if (attempt <=? 0)%Z then 1%Z else attempt in
  let pw := Qpower (backoff_factor p) (attempt - 1) in
  if pow_overflows pw then Raise (mk_exc OverflowError pow_overflow_msg)
  else Ok (delay_seconds p * pw).

(** The defaults of the dataclass and of [rules_from_config]. *)
Definition default_policy : RetryPolicy := mk_policy 3 5 2.

(** ** JSON values and Python dictionaries *)

(** Values produced by [response.json()] and the dictionaries built by the
    client; numbers are integers (no float appears in the fields the code
    reads).  A dictionary is its list of entries. *)
Set Warnings "-register-all".
Inductive json :=
| JNull
| JBool (b : bool)
| JNum (z : Z)
| JStr (s : string)
| JArr (l : list json)
| JObj (kvs : list (string * json)).

(** Lookup in a dictionary; when a key repeats, [json.loads] keeps the last
    entry. *)
Fixpoint assoc_last (k : string) (kvs : list (string * json)) : option json :=
  match kvs with
  | [] => None
  | (k', v) :: r =>
      match assoc_last k r with
      | Some w => Some w
      | None => if String.eqb k k' then Some v else None
      end
  end.

(** [d.get(k, default)]: an [AttributeError] when [d] is not a dict. *)
Definition py_get (d : json) (k : string) (default : json) : res json :=
  match d with
  | JObj kvs =>
      match assoc_last k kvs with Some v => Ok v | None => Ok default end
  | _ => Raise (mk_exc AttributeError "object has no attribute 'get'")
  end.

(** [v == "lit"] for a JSON value and a string literal. *)
Definition json_is_str (v : json) (lit : string) : bool :=
  match v with JStr s => String.eqb s lit | _ => false end.

Fixpoint join (sep : string) (l : list string) : string :=
  match l with
  | [] => ""
  | [x] => x
  | x :: r => x ++ sep ++ join sep r
  end.

(** [repr(v)] (strings are quoted with single quotes and not escaped). *)
Fixpoint py_repr (v : json) : string :=
  match v with
  | JNull => "None"
  | JBool true => "True"
  | JBool false => "False"
  | JNum z => py_str_int z
  | JStr s => "'" ++ s ++ "'"
  | JArr l =>
      "[" ++ join ", " ((fix go (l : list json) : list string :=
                          match l with [] => [] | x :: r => py_repr x :: go r end) l)
      ++ "]"
  | JObj kvs =>
      "{" ++ join ", " ((fix go (l : list (string * json)) : list string :=
                          match l with
                          | [] => []
                          | (k, x) :: r => ("'" ++ k ++ "': " ++ py_repr x) :: go r
                          end) kvs)
      ++ "}"
  end.

(** [str(v)], as an f-string renders it. *)
Definition py_str (v : json) : string :=
  match v with JStr s => s | _ => py_repr v end.

(** ** The transport and the state of one run *)

(** What one call of [ESIMRSPClient._make_request] (the signed POST, with
    the [tenacity] wrapper around it) does: return the decoded body or
    raise. *)
Inductive tresult := TOk (body : json) | TExc (e : py_exc).

(** The remote side: the outcome of the [n]-th call, given its endpoint and
    request body. *)
Definition Transport := nat -> string -> json -> tresult.

(** The observable state: how many transport calls were made so far and
    the delays passed to [time.sleep], most recent first. *)
Record St := mk_st { calls : nat; sleeps : list Q }.

Definition M (A : Type) := St -> res A * St.

Definition ret {A} (a : A) : M A := fun st => (Ok a, st).

Definition bind {A B} (m : M A) (k : A -> M B) : M B :=
  fun st =>
    match m st with
    | (Ok a, st') => k a st'
    | (Raise e, st') => (Raise e, st')
    | (LoopBound, st') => (LoopBound, st')
    end.

Notation "x <- m ;; k" := (bind m (fun x => k))
  (at level 61, m at next level, right associativity).
Notation "m ;;; k" := (bind m (fun _ => k))
  (at level 61, right associativity).

Definition raise {A} (e : py_exc) : M A := fun st => (Raise e, st).

Definition lift {A} (r : res A) : M A := fun st => (r, st).

(** [try: m except Exception]: the outcome of [m] as a value. *)
Definition try_ {A} (m : M A) : M (res A) :=
  fun st =>
    match m st with
    | (LoopBound, st') => (LoopBound, st')
    | (r, st') => (Ok r, st')
    end.

(** [self._make_request(endpoint=..., method='POST', body=...)]. *)
Definition make_request (tr : Transport) (endpoint : string) (body : json)
  : M json :=
  fun st =>
    (match tr (calls st) endpoint body with
     | TOk b => Ok b
     | TExc e => Raise e
     end, mk_st (S (calls st)) (sleeps st)).

(** [time.sleep(d)] converts [d] to a signed 64-bit count of nanoseconds
    ([_PyTime_FromSecondsObject] with [_PyTime_ROUND_TIMEOUT]): the
    product [d * 10^9] is rounded to a double, then away from zero, and a
    result outside [[-2^63, 2^63)] raises [OverflowError].  A double in
    [[2^62, 2^63)] is a multiple of [2^10], so the rounded product reaches
    [2^63] exactly when [d * 10^9 >= 2^63 - 2^9], and falls below [-2^63]
    exactly when [d * 10^9 < -2^63 - 2^10] (ties go to the even [2^63]). *)
Definition sleep_overflows (d : Q) : bool :=
  let ns := d * inject_Z (10 ^ 9) in
  Qle_bool (inject_Z (2 ^ 63 - 2 ^ 9)) ns ||
  negb (Qle_bool (inject_Z (- 2 ^ 63 - 2 ^ 10)) ns).

(** [time.sleep(d)]: the conversion first, then the sign check. *)
Definition py_sleep (d : Q) : M unit :=
  fun st =>
    if sleep_overflows d then
      (Raise (mk_exc OverflowError "timestamp too large to convert to C _PyTime_t"), st)
    else if negb (Qle_bool 0 d) then
      (Raise (mk_exc ValueError "sleep length must be non-negative"), st)
    else (Ok tt, mk_st (calls st) (d :: sleeps st)).

(** ** [ESIMRSPClient.expire_order] *)

(** The dictionaries [expire_order] returns. *)
Definition expire_success (iccid : string) (attempts : Z) (response : json)
    (start_ts end_ts : string) : json :=
  JObj [("iccid", JStr iccid); ("status", JStr "success");
        ("attempts", JNum attempts); ("http_status", JNum 200);
        ("response", response); ("start_ts", JStr start_ts);
        ("end_ts", JStr end_ts)].

Definition expire_failed (iccid : string) (attempts : Z) (error : string)
    (start_ts end_ts : string) : json :=
  JObj [("iccid", JStr iccid); ("status", JStr "failed");
        ("attempts", JNum attempts); ("http_status", JNull);
        ("error", JStr error); ("start_ts", JStr start_ts);
        ("end_ts", JStr end_ts)].

Definition expire_endpoint : string := "/redtea/rsp2/es2plus/order/expire".

(** The request body; [uuid] is [str(uuid.uuid4())]. *)
Definition expire_payload (iccid final_status : string)
    (matchingId eid : option string) (uuid : string) : json :=
  let base :=
    [("iccid", JStr iccid); ("finalProfileStatusIndicator", JStr final_status);
     ("header", JObj [("functionRequesterIdentifier", JStr uuid);
                      ("functionCallIdentifier", JStr "expireOrder")])] in
  let with_m := match matchingId with
                | Some m => if String.eqb m "" then base
                            else app base [("matchingId", JStr m)]
                | None => base end in
  let with_e := match eid with
                | Some e => if String.eqb e "" then with_m
                            else app with_m [("eid", JStr e)]
                | None => with_m end in
  JObj with_e.

Section ExpireOrder.
(** [self.retry_policy] of the client, the remote side, the ICCID, the
    request body and the timestamps (rendered from [datetime.utcnow()],
    which no property inspects). *)
Variable pol : RetryPolicy.
Variable tr : Transport.
Variable iccid : string.
Variable payload : json.
Variable start_ts end_ts : string.

(** The [while True] loop; [fuel] bounds its iterations. *)
Fixpoint expire_loop (fuel : nat) (attempts : Z) : M json :=
  match fuel with
  | O => fun st => (LoopBound, st)
  | S f =>
      let attempts := (attempts + 1)%Z in
      r <- try_ (make_request tr expire_endpoint payload) ;;
      match r with
      | Ok response => ret (expire_success iccid attempts response start_ts end_ts)
      | Raise exc =>
          if can_retry pol attempts then
            delay <- lift (next_delay pol attempts) ;;
            py_sleep delay ;;;
            expire_loop f attempts
          else ret (expire_failed iccid attempts (exc_msg exc) start_ts end_ts)
      | LoopBound => fun st => (LoopBound, st)
      end
  end.
End ExpireOrder.

(** [expire_order(iccid, final_status, matchingId, eid)]: the loop runs at
    most [max(1, max_attempts)] times, so [max_attempts + 1] iterations
    bound it. *)
Definition expire_order (pol : RetryPolicy) (tr : Transport) (iccid : string)
    (final_status : string) (matchingId eid : option string)
    (uuid start_ts end_ts : string) : M json :=
  expire_loop pol tr iccid (expire_payload iccid final_status matchingId eid uuid)
    start_ts end_ts (S (Z.to_nat (max_attempts pol))) 0.

(** ** [_process_batch] in [main.py] *)

(** [ProcessingResult], restricted to the fields the loop writes. *)
Record ProcessingResult := mk_pr {
  iccid : string;
  status : string;
  success_reason : option string;
  error_message : option string;
  retry_attempts : Z;
  api_response : option json
}.

Definition initial_result (rec_iccid : string) : ProcessingResult :=
  mk_pr rec_iccid "PENDING" None None 0 None.

Definition set_status (r : ProcessingResult) (s : string) : ProcessingResult :=
  mk_pr (iccid r) s (success_reason r) (error_message r) (retry_attempts r)
    (api_response r).
Definition set_reason (r : ProcessingResult) (s : string) : ProcessingResult :=
  mk_pr (iccid r) (status r) (Some s) (error_message r) (retry_attempts r)
    (api_response r).
Definition set_error (r : ProcessingResult) (s : string) : ProcessingResult :=
  mk_pr (iccid r) (status r) (success_reason r) (Some s) (retry_attempts r)
    (api_response r).
Definition set_attempts (r : ProcessingResult) (a : Z) : ProcessingResult :=
  mk_pr (iccid r) (status r) (success_reason r) (error_message r) a
    (api_response r).
Definition set_response (r : ProcessingResult) (v : json) : ProcessingResult :=
  mk_pr (iccid r) (status r) (success_reason r) (error_message r)
    (retry_attempts r) (Some v).

(** [response.get("response", {}).get("header", {}).get("functionExecutionStatus", {})]. *)
Definition exec_status_of (response : json) : res json :=
  x <-? py_get response "response" (JObj []) ;;
  y <-? py_get x "header" (JObj []) ;;
  py_get y "functionExecutionStatus" (JObj []).

(** [f"{subject_code}/{reason_code}"] read from [statusCodeData]. *)
Definition error_code_of (exec_status : json) : res string :=
  status_data <-? py_get exec_status "statusCodeData" (JObj []) ;;
  subject_code <-? py_get status_data "subjectCode" (JStr "") ;;
  reason_code <-? py_get status_data "reasonCode" (JStr "") ;;
  Ok (py_str subject_code ++ "/" ++ py_str reason_code).

(** The error code and [status_data.get("message", "Unknown error")]. *)
Definition failure_details (exec_status : json) : res (string * json) :=
  error_code <-? error_code_of exec_status ;;
  status_data <-? py_get exec_status "statusCodeData" (JObj []) ;;
  error_msg <-? py_get status_data "message" (JStr "Unknown error") ;;
  Ok (error_code, error_msg).

(** How one iteration of the [for attempt in ...] loop ends: on to the next
    attempt, [break], or an exception escaping to the outer
    [except Exception] together with the result as mutated so far. *)
Inductive flow :=
| Continue (r : ProcessingResult)
| Break (r : ProcessingResult)
| Escape (r : ProcessingResult) (e : py_exc).

Section ProcessBatch.
(** [self.rsp_client.retry_policy] and [self.retry_policy] (both built by
    [get_default_rules()]), the remote side, and the request identifier
    and timestamps of the calls. *)
Variable client_pol : RetryPolicy.
Variable pol : RetryPolicy.
Variable tr : Transport.
Variable uuid start_ts end_ts : string.

(** [except RSPClientError as e:] around the body of one attempt; any
    other exception escapes. *)
Definition on_rsp_error (attempt : Z) (r : ProcessingResult) (e : py_exc)
  : M flow :=
  if is_rsp_client_error e then
    let r := set_attempts r attempt in
    if (max_attempts pol <=? attempt)%Z then
      ret (Continue (set_error (set_status r "FAILED")
                       ("RSP Client Error: " ++ exc_msg e)))
    else
      s <- try_ (delay <- lift (next_delay pol attempt) ;; py_sleep delay) ;;
      match s with
      | Ok _ => ret (Continue r)
      | Raise e' => ret (Escape r e')
      | LoopBound => fun st => (LoopBound, st)
      end
  else ret (Escape r e).

(** The body of the [try:] of one attempt. *)
Definition attempt_body (rec_iccid : string) (attempt : Z)
    (r : ProcessingResult) : M flow :=
  x <- try_ (expire_order client_pol tr rec_iccid "Unavailable" None None
               uuid start_ts end_ts) ;;
  match x with
  | Raise e => on_rsp_error attempt r e
  | LoopBound => fun st => (LoopBound, st)
  | Ok response =>
      let r := set_response (set_attempts r attempt) response in
      match res_bind (exec_status_of response)
              (fun es => s <-? py_get es "status" JNull ;; Ok (es, s)) with
      | Raise e => on_rsp_error attempt r e
      | LoopBound => fun st => (LoopBound, st)
      | Ok (exec_status, status) =>
          if json_is_str status "Executed-Success" then
            ret (Break (set_reason (set_status r "SUCCESS") "DEACTIVATED"))
          else if json_is_str status "Failed" then
            match failure_details exec_status with
            | Raise e => on_rsp_error attempt r e
            | LoopBound => fun st => (LoopBound, st)
            | Ok (error_code, error_msg) =>
                if String.eqb error_code "8.2.1/3.3" then
                  ret (Break (set_reason (set_status r "SUCCESS") "ALREADY_EXPIRED"))
                else
                  let r := set_error r ("[" ++ error_code ++ "] " ++ py_str error_msg) in
                  if (max_attempts pol <=? attempt)%Z then
                    ret (Break (set_status r "FAILED"))
                  else
                    s <- try_ (delay <- lift (next_delay pol attempt) ;;
                               py_sleep delay) ;;
                    match s with
                    | Ok _ => ret (Continue r)
                    | Raise e => on_rsp_error attempt r e
                    | LoopBound => fun st => (LoopBound, st)
                    end
            end
          else
            ret (Break (set_error (set_status r "FAILED")
                          ("Unexpected API status: " ++ py_str status)))
      end
  end.

(** [for attempt in range(n0, ...)] with [n] iterations left. *)
Fixpoint attempt_loop (rec_iccid : string) (n : nat) (attempt : Z)
    (r : ProcessingResult) : M flow :=
  match n with
  | O => ret (Continue r)
  | S n' =>
      fl <- attempt_body rec_iccid attempt r ;;
      match fl with
      | Continue r' => attempt_loop rec_iccid n' (attempt + 1) r'
      | _ => ret fl
      end
  end.

(** The outer [except Exception as e:]. *)
Definition finalize (fl : flow) : ProcessingResult :=
  match fl with
  | Continue r | Break r => r
  | Escape r e => set_error (set_status r "FAILED") ("Unexpected error: " ++ exc_msg e)
  end.

(** The processing of one record of a batch. *)
Definition process_record (rec_iccid : string) : M ProcessingResult :=
  fl <- attempt_loop rec_iccid (Z.to_nat (max_attempts pol)) 1
          (initial_result rec_iccid) ;;
  ret (finalize fl).

(** [_process_batch]: the records in order. *)
Fixpoint process_batch (batch : list string) : M (list ProcessingResult) :=
  match batch with
  | [] => ret []
  | rec_iccid :: rest =>
      r <- process_record rec_iccid ;;
      rs <- process_batch rest ;;
      ret (r :: rs)
  end.
End ProcessBatch.

(** ** The success-rate verdict of [_process_file] *)

Definition status_in (l : list string) (r : ProcessingResult) : bool :=
  existsb (String.eqb (status r)) l.

(** Lines 550-560 of [_process_file]: [total_esim], [successful] and the
    comparison with [config.success_threshold]. *)
Definition file_verdict (file_results : list ProcessingResult)
    (success_threshold : Q) : bool :=
  let total_esim := length (filter (status_in ["SUCCESS"; "FAILED"]) file_results) in
  let successful := length (filter (status_in ["SUCCESS"]) file_results) in
  if (0 <? total_esim)%nat then
    Qle_bool success_threshold
      (inject_Z (Z.of_nat successful) / inject_Z (Z.of_nat total_esim))
  else true.

(** ** [XMLProcessor.parse_file] *)

(** [str.isprintable] on one character, for Latin-1: the control
    characters U+0000..U+001F and U+007F..U+009F, the no-break space U+00A0
    and the soft hyphen U+00AD are not printable. *)
Definition py_isprintable_char (c : ascii) : bool :=
  let n := code c in
  negb ((n <? 32)%nat || ((127 <=? n)%nat && (n <=? 160)%nat) || (n =? 173)%nat).

(** [''.join(ch for ch in s if p(ch))]. *)
Fixpoint filter_chars (p : ascii -> bool) (s : string) : string :=
  match s with
  | EmptyString => EmptyString
  | String c r => if p c then String c (filter_chars p r) else filter_chars p r
  end.

(** The [raw] dictionary of one XML item: tag to stripped text; a tag that
    repeats keeps its last text. *)
Definition raw_item := list (string * string).

Fixpoint raw_get (k : string) (raw : raw_item) : option string :=
  match raw with
  | [] => None
  | (k', v) :: r =>
      match raw_get k r with
      | Some w => Some w
      | None => if String.eqb k k' then Some v else None
      end
  end.

(** Python's [a or b] on two values that are [None] or a [str]. *)
Definition py_or (a b : option string) : option string :=
  match a with
  | Some s => if String.eqb s "" then b else a
  | None => b
  end.

(** [NginRecord], restricted to the fields the deactivation reads. *)
Record NginRecord := mk_ngin { ngin_iccid : string; action : option string }.

(** [''.join(ch for ch in str(iccid).strip() if ch.isprintable())]. *)
Definition clean_iccid (iccid : string) : string :=
  filter_chars py_isprintable_char (py_strip iccid).

(** The body of the [for it in items] loop of [parse_file] once [raw] is
    built: a record, or the pair [(raw, reason)] of an invalid item. *)
Definition parse_item (raw : raw_item) : NginRecord + (raw_item * string) :=
  let iccid := py_or (py_or (raw_get "ICCID" raw) (raw_get "iccid" raw))
                 (raw_get "Iccid" raw) in
  let act := py_or (raw_get "Action" raw) (raw_get "action" raw) in
  match iccid with
  | None => inr (raw, "Missing ICCID")
  | Some i =>
      if String.eqb i "" then inr (raw, "Missing ICCID")
      else
        let iccid_clean := clean_iccid i in
        if negb (py_isdigit iccid_clean) then inr (raw, "ICCID not numeric")
        else if (String.length iccid_clean <? 19)%nat
                || (22 <? String.length iccid_clean)%nat
        then inr (raw, "ICCID length "
                         ++ py_str_int (Z.of_nat (String.length iccid_clean))
                         ++ " out of expected range")
        else
          inl (mk_ngin iccid_clean
                 (match act with
                  | Some a => if String.eqb a "" then None else Some (py_strip a)
                  | None => None
                  end))
  end.

Fixpoint parse_items (items : list raw_item)
  : list NginRecord * list (raw_item * string) :=
  match items with
  | [] => ([], [])
  | it :: rest =>
      let '(valid, invalid) := parse_items rest in
      match parse_item it with
      | inl r => (r :: valid, invalid)
      | inr bad => (valid, bad :: invalid)
      end
  end.

(** [parse_file] after [ET.parse]: [None] is a file that is missing or not
    well-formed XML, [Some items] the [CvtNginPrepaidData] items found. *)
Definition parse_file (doc : option (list raw_item))
  : res (list NginRecord * list (raw_item * string)) :=
  match doc with
  | None => Raise (mk_exc OtherException "Malformed XML")
  | Some [] => Raise (mk_exc OtherException
                        "No 'CvtNginPrepaidData' elements found in XML.")
  | Some items => Ok (parse_items items)
  end.

(** [_process_xml_file] in [main.py]: any exception gives [([], [])]. *)
Definition process_xml_file (doc : option (list raw_item))
  : list NginRecord * list (raw_item * string) :=
  match parse_file doc with
  | Ok x => x
  | _ => ([], [])
  end.

(** ** [_filter_deactivations] in [main.py] *)

(** [str.upper()] on one Latin-1 character, as Unicode code points: the
    full case mapping sends U+00B5 to U+039C, U+00DF to "SS" and U+00FF to
    U+0178. *)
Definition upper_cp (c : ascii) : list nat :=
  let n := code c in
  if (97 <=? n)%nat && (n <=? 122)%nat then [(n - 32)%nat]
  else if (n =? 181)%nat then [924%nat]
  else if (n =? 223)%nat then [83%nat; 83%nat]
  else if (224 <=? n)%nat && (n <=? 254)%nat && negb (n =? 247)%nat
  then [(n - 32)%nat]
  else if (n =? 255)%nat then [376%nat]
  else [n].

Fixpoint py_upper (s : string) : list nat :=
  match s with
  | EmptyString => []
  | String c r => upper_cp c ++ py_upper r
  end.

Definition code_points (s : string) : list nat := map code (list_ascii_of_string s).

(** [record.action and record.action.upper() == "DEACTIVATE"]. *)
Definition is_deactivate (act : option string) : bool :=
  match act with
  | None => false
  | Some a =>
      negb (String.eqb a "") &&
      (if list_eq_dec Nat.eq_dec (py_upper a) (code_points "DEACTIVATE")
       then true else false)
  end.

(** [_filter_deactivations]: an exception of [is_esim] propagates. *)
Fixpoint filter_deactivations (rg : EsimRange) (records : list NginRecord)
  : res (list NginRecord) :=
  match records with
  | [] => Ok []
  | r :: rest =>
      if is_deactivate (action r) then
        b <-? is_esim rg (Some (ngin_iccid r)) ;;
        rs <-? filter_deactivations rg rest ;;
        Ok (if b then r :: rs else rs)
      else filter_deactivations rg rest
  end.

(** ** [_process_file] in [main.py] *)

(** The [unique_iccids] dictionary: a record is inserted under its ICCID
    unless the key is present, so the first record of an ICCID stays, in
    insertion order. *)
Fixpoint dedup_into (d : list (string * NginRecord)) (rs : list NginRecord)
  : list (string * NginRecord) :=
  match rs with
  | [] => d
  | r :: rest =>
      dedup_into
        (if existsb (String.eqb (ngin_iccid r)) (map fst d) then d
         else app d [(ngin_iccid r, r)]) rest
  end.

(** [list(unique_iccids.values())]. *)
Definition unique_records (rs : list NginRecord) : list NginRecord :=
  map snd (dedup_into [] rs).

(** [len(range(start, stop, step))] for [step <> 0]. *)
Definition range_len (start stop step : Z) : Z :=
  if (0 <? step)%Z then
    (if (start <? stop)%Z then (stop - start + step - 1) / step else 0)%Z
  else
    (if (stop <? start)%Z then (start - stop - step - 1) / (- step) else 0)%Z.

(** [range(start, stop, step)]. *)
Definition py_range (start stop step : Z) : res (list Z) :=
  if (step =? 0)%Z then Raise (mk_exc ValueError "range() arg 3 must not be zero")
  else Ok (map (fun k => start + Z.of_nat k * step)%Z
             (seq 0 (Z.to_nat (range_len start stop step)))).

(** [l[i:j]]. *)
Definition slice_index (n : nat) (i : Z) : nat :=
  Z.to_nat (if (i <? 0)%Z then Z.max 0 (Z.of_nat n + i) else Z.min i (Z.of_nat n)).

Definition py_slice {A} (l : list A) (i j : Z) : list A :=
  let a := slice_index (length l) i in
  let b := slice_index (length l) j in
  firstn (b - a) (skipn a l).

(** The [ProcessingResult] of an invalid item. *)
Definition invalid_result (inv : raw_item * string) : ProcessingResult :=
  mk_pr (match raw_get "iccid" (fst inv) with Some s => s | None => "UNKNOWN" end)
    "INVALID" None (Some (snd inv)) 0 None.

Section ProcessFile.
(** The two retry policies, the remote side and the request identifier and
    timestamps, as for [_process_batch]; [self.esim_range] and the
    [batch_size], [rate_limit_sleep] and [success_threshold] of
    [self.config]. *)
Variable client_pol : RetryPolicy.
Variable pol : RetryPolicy.
Variable tr : Transport.
Variable uuid start_ts end_ts : string.
Variable rg : EsimRange.
Variable batch_size : Z.
Variable rate_limit_sleep : Q.
Variable success_threshold : Q.

(** The [for i in range(0, len(deactivations), batch_size)] loop; it
    returns [file_results] and the exception that ended it, if any. *)
Fixpoint batch_loop (deactivations : list NginRecord) (idx : list Z)
    (file_results : list ProcessingResult)
  : M (list ProcessingResult * option py_exc) :=
  match idx with
  | [] => ret (file_results, None)
  | i :: rest =>
      let batch := py_slice deactivations i (i + batch_size) in
      x <- try_ (process_batch client_pol pol tr uuid start_ts end_ts
                   (map ngin_iccid batch)) ;;
      match x with
      | Raise e => ret (file_results, Some e)
      | LoopBound => fun st => (LoopBound, st)
      | Ok batch_results =>
          let file_results := app file_results batch_results in
          if (i + batch_size <? Z.of_nat (length deactivations))%Z then
            s <- try_ (py_sleep rate_limit_sleep) ;;
            match s with
            | Ok _ => batch_loop deactivations rest file_results
            | Raise e => ret (file_results, Some e)
            | LoopBound => fun st => (LoopBound, st)
            end
          else batch_loop deactivations rest file_results
      end
  end.

(** [_process_file(remote_file, local_file)]; [doc] is the local file as
    [ET.parse] reads it. *)
Definition process_file (doc : option (list raw_item))
  : M (bool * list ProcessingResult) :=
  let '(records, invalids) := process_xml_file doc in
  let file_results := map invalid_result invalids in
  match filter_deactivations rg records with
  | Raise _ => ret (false, file_results)
  | LoopBound => fun st => (LoopBound, st)
  | Ok [] => ret (true, file_results)
  | Ok deactivations =>
      let deactivations := unique_records deactivations in
      match py_range 0 (Z.of_nat (length deactivations)) batch_size with
      | Raise _ => ret (false, file_results)
      | LoopBound => fun st => (LoopBound, st)
      | Ok idx =>
          out <- batch_loop deactivations idx file_results ;;
          match out with
          | (file_results, Some _) => ret (false, file_results)
          | (file_results, None) =>
              ret (file_verdict file_results success_threshold, file_results)
          end
      end
  end.
End ProcessFile.

(** ** Definitions used to state the properties *)

(** A non-empty string of the decimal digits '0'..'9'. *)
Definition ascii_digits (s : string) : bool :=
  match s with
  | EmptyString => false
  | _ => all_chars is_ascii_digit s
  end.

(** The Luhn sum as the specification words it: over the 0-based indices
    [i] of a string of length [L], the digit [d_i] doubled when
    [i mod 2 = L mod 2] and reduced by 9 when the doubled value exceeds 9,
    otherwise [d_i] itself. *)
Definition digit_at (s : string) (i : nat) : Z :=
  match String.get i s with
  | Some c => Z.of_nat (code c - 48)
  | None => 0%Z
  end.

Definition luhn_term (L i : nat) (d : Z) : Z :=
  if (Nat.modulo i 2 =? Nat.modulo L 2)%nat then
    (if 9 <? 2 * d then 2 * d - 9 else 2 * d)%Z
  else d.

Definition luhn_sum_spec (s : string) : Z :=
  fold_right Z.add 0%Z
    (map (fun i => luhn_term (String.length s) i (digit_at s i))
       (seq 0 (String.length s))).

(** The superscript two, U+00B2: [str.isdigit] accepts it, [int] does
    not. *)
Definition sup2 : ascii := ascii_of_nat 178.

(** The remote side that raises on every call. *)
Definition always_raise (msg : string) : Transport :=
  fun _ _ _ => TExc (mk_exc RSPClientRequestError msg).

(** [header.functionExecutionStatus] of an API response body. *)
Definition body_exec_status (body : json) : res json :=
  h <-? py_get body "header" (JObj []) ;;
  py_get h "functionExecutionStatus" (JObj []).

(** The nested field [header.functionExecutionStatus.status] of an API
    response body (Python's [None] when absent). *)
Definition body_status (body : json) : res json :=
  es <-? body_exec_status body ;;
  py_get es "status" JNull.

(** A response body reporting the business failure 8.2.1/3.3, "expire order
    not exist". *)
Definition expired_body : json :=
  JObj [("header",
         JObj [("functionExecutionStatus",
                JObj [("status", JStr "Failed");
                      ("statusCodeData",
                       JObj [("subjectCode", JStr "8.2.1");
                             ("reasonCode", JStr "3.3");
                             ("message", JStr "Expire Order not Exist")])])])].

(** The verdict as the specification words it: [successes / (successes +
    failures)] over the SUCCESS and FAILED outcomes, compared with the
    threshold, and met when that denominator is zero. *)
Definition count_status (st : string) (rs : list ProcessingResult) : nat :=
  length (filter (fun r => String.eqb (status r) st) rs).

Definition verdict_spec (rs : list ProcessingResult) (threshold : Q) : bool :=
  let successes := count_status "SUCCESS" rs in
  let failures := count_status "FAILED" rs in
  if (successes + failures =? 0)%nat then true
  else Qle_bool threshold
         (inject_Z (Z.of_nat successes) /
          inject_Z (Z.of_nat (successes + failures))).

(** An outcome carrying only a status. *)
Definition outcome (st : string) : ProcessingResult :=
  mk_pr "89238010000101567890" st None None 1 None.

(** The delay of attempt [n] as the specification words it:
    [delay_seconds * backoff_factor ^ (max(n, 1) - 1)]. *)
Definition delay_value (p : RetryPolicy) (n : Z) : Q :=
  delay_seconds p * Qpower (backoff_factor p) (Z.max n 1 - 1).

(** A duration [time.sleep] accepts: non-negative and within the range of
    its nanosecond count. *)
Definition sleepable (d : Q) : bool := Qle_bool 0 d && negb (sleep_overflows d).

(** [next_delay p n] returns a duration [time.sleep] accepts. *)
Definition delay_sleepable (p : RetryPolicy) (n : Z) : bool :=
  match next_delay p n with
  | Ok d => sleepable d
  | _ => false
  end.

(** Every delay a retry loop of policy [p] may sleep, those of the
    attempts [1 .. max_attempts - 1], is computed and accepted by
    [time.sleep]. *)
Definition retry_delays_ok (p : RetryPolicy) : bool :=
  forallb (fun k => delay_sleepable p (Z.of_nat k))
    (seq 1 (Z.to_nat (max_attempts p - 1))).

(** The delays a retry loop that started after attempt [a] has slept
    after its next [n] attempts, most recent first, as [St.sleeps] records
    them: the delays of the attempts [a + n], ..., [a + 1]. *)
Fixpoint delays_from (p : RetryPolicy) (a : Z) (n : nat) : list Q :=
  match n with
  | O => []
  | S n' => delay_value p (a + Z.of_nat n) :: delays_from p a n'
  end.

(** The start of the batch [l[k * batch_size : (k + 1) * batch_size]] of a
    list of length [n], as a list index: [min(k * batch_size, n)]. *)
Definition slice_end (n : nat) (bs : Z) (k : nat) : nat :=
  Z.to_nat (Z.min (Z.of_nat k * bs) (Z.of_nat n)).

(** The result [_process_batch] builds for a record whose first attempt
    returns [body] with the execution status "Executed-Success". *)
Definition deactivated_result (rec_iccid : string) (body : json) (t0 t1 : string)
  : ProcessingResult :=
  set_reason (set_status (set_response (set_attempts (initial_result rec_iccid) 1)
                            (expire_success rec_iccid 1 body t0 t1)) "SUCCESS")
    "DEACTIVATED".

(** A response body reporting a completed expiry. *)
Definition success_body : json :=
  JObj [("header",
         JObj [("functionExecutionStatus", JObj [("status", JStr "Executed-Success")])])].

(** A response body reporting the business failure 8.1.1/2.1. *)
Definition refused_body : json :=
  JObj [("header",
         JObj [("functionExecutionStatus",
                JObj [("status", JStr "Failed");
                      ("statusCodeData",
                       JObj [("subjectCode", JStr "8.1.1");
                             ("reasonCode", JStr "2.1");
                             ("message", JStr "Refused")])])])].

(** The items of a sample [CvtNginPrepaidData] file: two deactivations in
    the default range, one of them repeated, a deactivation outside the
    range, an activation, and two invalid items (one tagged [iccid]). *)
Definition sample_items : list raw_item :=
  [[("ICCID", "89238010000101567890"); ("Action", "DEACTIVATE")];
   [("ICCID", "89238010000101123456"); ("Action", "deactivate")];
   [("ICCID", "89238010000101567890"); ("Action", "Deactivate")];
   [("ICCID", "89238010000201567890"); ("Action", "DEACTIVATE")];
   [("ICCID", "89238010000101000001"); ("Action", "ACTIVATE")];
   [("iccid", "12345"); ("Action", "DEACTIVATE")];
   [("ICCID", "ABC"); ("Action", "DEACTIVATE")]].

(** ** Lemmas on the string model *)

Lemma all_chars_rev_str p s acc :
  all_chars p (rev_str s acc) = all_chars p s && all_chars p acc.
Proof.
  revert acc; induction s as [|c r IH]; intros acc; simpl.
  - reflexivity.
  - rewrite IH; simpl. destruct (p c), (all_chars p r), (all_chars p acc); reflexivity.
Qed.

Lemma rev_str_rev_str s acc t :
  rev_str (rev_str s acc) t = rev_str acc (s ++ t).
Proof.
  revert acc; induction s as [|c r IH]; intros acc; simpl.
  - reflexivity.
  - rewrite IH. reflexivity.
Qed.

Lemma append_empty_r s : (s ++ "")%string = s.
Proof. induction s as [|c r IH]; simpl; [reflexivity | now rewrite IH]. Qed.

Lemma digit_not_space c : is_ascii_digit c = true -> py_isspace_char c = false.
Proof.
  unfold is_ascii_digit, py_isspace_char.
  intros H; apply andb_true_iff in H as [H1 H2].
  apply Nat.leb_le in H1; apply Nat.leb_le in H2.
  repeat (apply orb_false_iff; split);
    try (apply andb_false_iff; left + right; apply Nat.leb_gt; lia);
    apply Nat.eqb_neq; lia.
Qed.

Lemma lstrip_digits s : all_chars is_ascii_digit s = true -> lstrip s = s.
Proof.
  destruct s as [|c r]; simpl; [reflexivity|].
  intros H; apply andb_true_iff in H as [H _].
  now rewrite digit_not_space.
Qed.

Lemma strip_digits s : all_chars is_ascii_digit s = true -> py_strip s = s.
Proof.
  intros H; unfold py_strip.
  rewrite (lstrip_digits s H).
  rewrite lstrip_digits.
  - rewrite rev_str_rev_str; simpl. apply append_empty_r.
  - rewrite all_chars_rev_str, H. reflexivity.
Qed.

Lemma all_chars_impl (p q : ascii -> bool) s :
  (forall c, p c = true -> q c = true) ->
  all_chars p s = true -> all_chars q s = true.
Proof.
  intros Hpq; induction s as [|c r IH]; simpl; [reflexivity|].
  intros H; apply andb_true_iff in H as [H1 H2].
  now rewrite (Hpq c H1), (IH H2).
Qed.

Lemma ascii_digits_all s : ascii_digits s = true -> all_chars is_ascii_digit s = true.
Proof. destruct s; simpl; [discriminate | auto]. Qed.

Lemma ascii_digits_isdigit s : ascii_digits s = true -> py_isdigit s = true.
Proof.
  destruct s as [|c r]; [discriminate|]. intros H. unfold py_isdigit.
  apply (all_chars_impl is_ascii_digit); [|exact H].
  intros d Hd; unfold py_isdigit_char; now rewrite Hd.
Qed.

Lemma ascii_digits_strip s : ascii_digits s = true -> py_strip s = s.
Proof. intros H; apply strip_digits, ascii_digits_all, H. Qed.

Lemma drop_last_length s : String.length (drop_last s) = (String.length s - 1)%nat.
Proof.
  induction s as [|c r IH]; [reflexivity|].
  destruct r as [|c' r']; [reflexivity|].
  change (drop_last (String c (String c' r'))) with (String c (drop_last (String c' r'))).
  simpl in *. rewrite IH. lia.
Qed.

Lemma drop_last_all p s : all_chars p s = true -> all_chars p (drop_last s) = true.
Proof.
  induction s as [|c r IH]; [reflexivity|].
  destruct r as [|c' r']; [reflexivity|].
  change (drop_last (String c (String c' r'))) with (String c (drop_last (String c' r'))).
  simpl. intros H; apply andb_true_iff in H as [H1 H2].
  rewrite H1; simpl. apply IH, H2.
Qed.

Lemma luhn_loop_sum L i s total :
  all_chars is_ascii_digit s = true ->
  luhn_loop (Nat.modulo L 2) i s total =
  Ok (total + fold_right Z.add 0
                (map (fun k => luhn_term L (i + k) (digit_at s k))
                   (seq 0 (String.length s))))%Z.
Proof.
  revert i total; induction s as [|c r IH]; intros i total H.
  - simpl. f_equal. lia.
  - simpl in H; apply andb_true_iff in H as [Hc Hr].
    simpl luhn_loop. unfold py_int_char. rewrite Hc. simpl res_bind.
    rewrite (IH (S i) _ Hr). f_equal.
    simpl String.length. simpl seq. rewrite <- seq_shift.
    cbn [map fold_right]. rewrite map_map, Nat.add_0_r.
    erewrite (map_ext (fun x => luhn_term L (i + S x) _)
                      (fun k => luhn_term L (S i + k) (digit_at r k))).
    + unfold luhn_term, digit_at. simpl. lia.
    + intros k. rewrite Nat.add_succ_r. reflexivity.
Qed.

Lemma luhn_valid_digits s :
  ascii_digits s = true ->
  luhn_valid s = Ok (Z.modulo (luhn_sum_spec s) 10 =? 0)%Z.
Proof.
  intros H. unfold luhn_valid.
  rewrite (ascii_digits_isdigit s H). simpl negb. cbv iota.
  rewrite (luhn_loop_sum (String.length s) 0 s 0 (ascii_digits_all s H)).
  reflexivity.
Qed.

Lemma luhn_valid_not_isdigit s :
  all_chars py_isdigit_char s = false -> luhn_valid s = Ok false.
Proof.
  intros H. unfold luhn_valid, py_isdigit.
  destruct s as [|c r]; [reflexivity|]. rewrite H. reflexivity.
Qed.

(** Same-length comparison, shared by C4 and C5. *)
Lemma is_esim_same_length rg s :
  ascii_digits s = true ->
  ascii_digits (range_start_s rg) = true ->
  ascii_digits (range_end_s rg) = true ->
  String.length s = String.length (range_start_s rg) ->
  String.length (range_start_s rg) = String.length (range_end_s rg) ->
  is_esim rg (Some s) =
  Ok (str_le (range_start_s rg) s && str_le s (range_end_s rg)).
Proof.
  intros Hs Hst Hen L1 L2.
  destruct s as [|c r]; [discriminate|].
  unfold is_esim. cbv zeta.
  rewrite (ascii_digits_strip _ Hs), (ascii_digits_isdigit _ Hs),
    (ascii_digits_isdigit _ Hst), (ascii_digits_isdigit _ Hen).
  simpl negb. cbv iota.
  rewrite L1, L2, Nat.eqb_refl. reflexivity.
Qed.

(** C3 (as amended).  On a non-empty string of the digits '0'..'9',
    [luhn_valid] holds iff the Luhn sum taken as the specification words it
    is divisible by 10; it is false on the empty string and on every string
    holding a character that [str.isdigit] rejects. *)
Theorem luhn_valid_correct s :
  (ascii_digits s = true ->
   (luhn_valid s = Ok true <-> Z.modulo (luhn_sum_spec s) 10 = 0%Z)) /\
  (s = EmptyString -> luhn_valid s = Ok false) /\
  (all_chars py_isdigit_char s = false -> luhn_valid s = Ok false).
Proof.
  split; [|split].
  - intros H. rewrite (luhn_valid_digits s H). split.
    + intros E; injection E as E. now apply Z.eqb_eq.
    + intros E. now rewrite E.
  - intros ->. reflexivity.
  - apply luhn_valid_not_isdigit.
Qed.

Lemma luhn_valid_correct_witness :
  ascii_digits "79927398713" = true /\ luhn_valid "79927398713" = Ok true /\
  all_chars py_isdigit_char "79a" = false /\ luhn_valid "79a" = Ok false.
Proof.
  split; [reflexivity|]. split.
  - apply (proj1 (luhn_valid_correct "79927398713")); [reflexivity|].
    vm_compute. reflexivity.
  - split; [reflexivity|].
    apply (proj2 (proj2 (luhn_valid_correct "79a"))). reflexivity.
Defined.

(** C3 counterexample.  The empty string is a digit string of length 0
    whose Luhn sum, 0, is divisible by 10, yet [luhn_valid] rejects it. *)
Lemma luhn_valid_empty_counterexample :
  ~ (luhn_valid "" = Ok true <-> Z.modulo (luhn_sum_spec "") 10 = 0%Z).
Proof.
  intros [_ H]. specialize (H eq_refl). discriminate H.
Qed.

(** C4.  An identifier of the digits '0'..'9' one character longer than the
    (equal-length, numeric) bounds that passes the Luhn check is classified
    as the same-length comparison of its value without the last character,
    i.e. as that shorter identifier itself. *)
Theorem is_esim_luhn_stripped rg s :
  ascii_digits s = true ->
  ascii_digits (range_start_s rg) = true ->
  ascii_digits (range_end_s rg) = true ->
  String.length (range_start_s rg) = String.length (range_end_s rg) ->
  String.length s = S (String.length (range_start_s rg)) ->
  luhn_valid s = Ok true ->
  is_esim rg (Some s) =
    Ok (str_le (range_start_s rg) (drop_last s) &&
        str_le (drop_last s) (range_end_s rg)) /\
  is_esim rg (Some s) = is_esim rg (Some (drop_last s)).
Proof.
  intros Hs Hst Hen L2 L1 Hl.
  assert (E : is_esim rg (Some s) =
    Ok (str_le (range_start_s rg) (drop_last s) &&
        str_le (drop_last s) (range_end_s rg))).
  { destruct s as [|c r]; [discriminate|].
    unfold is_esim. cbv zeta.
    rewrite (ascii_digits_strip _ Hs), (ascii_digits_isdigit _ Hs),
      (ascii_digits_isdigit _ Hst), (ascii_digits_isdigit _ Hen).
    simpl negb. cbv iota.
    rewrite L1, <- L2, Nat.eqb_refl.
    assert (N : (S (String.length (range_start_s rg)) =?
                 String.length (range_start_s rg))%nat = false)
      by (apply Nat.eqb_neq; lia).
    rewrite N, Nat.add_1_r, Nat.eqb_refl, Hl. reflexivity. }
  split; [exact E|].
  rewrite E, is_esim_same_length; auto.
  - destruct (range_start_s rg) as [|c0 r0] eqn:Es; [discriminate|].
    assert (2 <= String.length s)%nat by (simpl in L1; lia).
    destruct (drop_last s) as [|c1 r1] eqn:Ed.
    + pose proof (drop_last_length s) as D. rewrite Ed in D. simpl in D. lia.
    + change (all_chars is_ascii_digit (String c1 r1) = true).
      rewrite <- Ed. apply drop_last_all, ascii_digits_all, Hs.
  - rewrite drop_last_length. lia.
Qed.

Lemma is_esim_luhn_stripped_witness :
  ascii_digits "892380100001015678901" = true /\
  is_esim default_range (Some "892380100001015678901") =
    is_esim default_range (Some "89238010000101567890").
Proof.
  split; [reflexivity|].
  refine (proj2 (is_esim_luhn_stripped default_range "892380100001015678901"
                   _ _ _ _ _ _)); vm_compute; reflexivity.
Defined.

(** C5.  For an identifier of the digits '0'..'9' of the same length as
    the numeric bounds, [is_esim] is the lexicographic test
    [start <= identifier <= end]. *)
Theorem is_esim_same_length_range rg s :
  ascii_digits s = true ->
  ascii_digits (range_start_s rg) = true ->
  ascii_digits (range_end_s rg) = true ->
  String.length s = String.length (range_start_s rg) ->
  String.length (range_start_s rg) = String.length (range_end_s rg) ->
  is_esim rg (Some s) =
  Ok (str_le (range_start_s rg) s && str_le s (range_end_s rg)).
Proof. apply is_esim_same_length. Qed.

Lemma is_esim_same_length_range_witness :
  is_esim default_range (Some "89238010000101999999") = Ok true /\
  is_esim default_range (Some "89238010000102000000") = Ok false.
Proof.
  split.
  - rewrite (is_esim_same_length_range default_range "89238010000101999999");
      vm_compute; reflexivity.
  - rewrite (is_esim_same_length_range default_range "89238010000102000000");
      vm_compute; reflexivity.
Defined.

(** C6 (code defect).  [is_esim] relies on [str.isdigit], which accepts the
    superscript '²': with the default range, the 21-character identifier
    "89238010000101567890²" makes [luhn_valid] raise [ValueError] out of
    [is_esim], and the non-numeric "892380100001015²²²²²" is classified as
    an eSIM; the empty, [None] and alphabetic inputs do return false. *)
Theorem is_esim_superscript_digit :
  is_esim default_range (Some ("89238010000101567890" ++ String sup2 "")) =
    Raise (mk_exc ValueError "invalid literal for int() with base 10") /\
  is_esim default_range
    (Some ("892380100001015" ++
           String sup2 (String sup2 (String sup2 (String sup2 (String sup2 "")))))) =
    Ok true /\
  is_esim default_range None = Ok false /\
  is_esim default_range (Some "") = Ok false /\
  is_esim default_range (Some "abc") = Ok false.
Proof. vm_compute. repeat split. Qed.

(** ** Retry policy *)



(** ** Success-rate verdict *)

Lemma filter_success_failed rs :
  length (filter (status_in ["SUCCESS"; "FAILED"]) rs) =
  (count_status "SUCCESS" rs + count_status "FAILED" rs)%nat.
Proof.
  unfold count_status.
  induction rs as [|r rs IH]; [reflexivity|].
  cbn [filter].
  replace (status_in ["SUCCESS"; "FAILED"] r)
    with (String.eqb (status r) "SUCCESS" || String.eqb (status r) "FAILED")
    by (unfold status_in; simpl; destruct (String.eqb (status r) "FAILED");
        rewrite ?orb_true_r, ?orb_false_r; reflexivity).
  destruct (String.eqb_spec (status r) "SUCCESS") as [E|E];
    destruct (String.eqb_spec (status r) "FAILED") as [F|F];
    try (rewrite E in F; discriminate); cbn [orb length]; rewrite IH; lia.
Qed.

Lemma filter_success rs :
  length (filter (status_in ["SUCCESS"]) rs) = count_status "SUCCESS" rs.
Proof.
  unfold count_status.
  induction rs as [|r rs IH]; [reflexivity|].
  cbn [filter].
  replace (status_in ["SUCCESS"] r) with (String.eqb (status r) "SUCCESS")
    by (unfold status_in; simpl; rewrite orb_false_r; reflexivity).
  destruct (String.eqb (status r) "SUCCESS"); cbn [length]; lia.
Qed.

(** C9.  The verdict of a file counts only the SUCCESS and FAILED outcomes:
    it is [successes / (successes + failures) >= success_threshold], and it
    is met when no outcome is SUCCESS or FAILED; with threshold 0.95,
    19 SUCCESS and 1 FAILED meet it, 18 SUCCESS and 2 FAILED do not, also
    next to INVALID and SKIPPED outcomes. *)
Theorem file_verdict_success_rate (rs : list ProcessingResult) (threshold : Q) :
  file_verdict rs threshold = verdict_spec rs threshold /\
  file_verdict (repeat (outcome "SUCCESS") 19 ++ [outcome "FAILED"]) (95 # 100)
    = true /\
  file_verdict (outcome "INVALID" :: repeat (outcome "SUCCESS") 19 ++
                [outcome "FAILED"; outcome "SKIPPED"]) (95 # 100) = true /\
  file_verdict (repeat (outcome "SUCCESS") 18 ++
                [outcome "FAILED"; outcome "FAILED"]) (95 # 100) = false /\
  file_verdict [outcome "INVALID"; outcome "SKIPPED"] (95 # 100) = true.
Proof.
  split; [|vm_compute; repeat split].
  unfold file_verdict, verdict_spec.
  rewrite filter_success_failed, filter_success.
  destruct (count_status "SUCCESS" rs + count_status "FAILED" rs)%nat eqn:E;
    reflexivity.
Qed.

(** ** The monad and [expire_order] *)

Lemma bind_ok {A B} (m : M A) (k : A -> M B) st a st' :
  m st = (Ok a, st') -> bind m k st = k a st'.
Proof. intros H; unfold bind; now rewrite H. Qed.

Lemma try_ok {A} (m : M A) st (r : res A) st' :
  r <> LoopBound -> m st = (r, st') -> try_ m st = (Ok r, st').
Proof. intros N H; unfold try_; rewrite H; destruct r; [reflexivity|reflexivity|easy]. Qed.

Lemma py_get_not_bound d k df : py_get d k df <> LoopBound.
Proof.
  unfold py_get; destruct d; try discriminate.
  destruct (assoc_last k kvs); discriminate.
Qed.

Lemma py_get_raise d k df e :
  py_get d k df = Raise e -> is_rsp_client_error e = false.
Proof.
  unfold py_get; destruct d; try (intros H; injection H as <-; reflexivity).
  destruct (assoc_last k kvs); discriminate.
Qed.

Lemma body_exec_status_cases body :
  (exists es, body_exec_status body = Ok es) \/
  (exists e, body_exec_status body = Raise e /\ is_rsp_client_error e = false).
Proof.
  unfold body_exec_status.
  destruct (py_get body "header" (JObj [])) as [h|e|] eqn:E1; simpl.
  - destruct (py_get h "functionExecutionStatus" (JObj [])) as [es|e|] eqn:E2.
    + left; eauto.
    + right; exists e; split; [reflexivity|]. eapply py_get_raise; eauto.
    + exfalso; eapply py_get_not_bound; eauto.
  - right; exists e; split; [reflexivity|]. eapply py_get_raise; eauto.
  - exfalso; eapply py_get_not_bound; eauto.
Qed.

Lemma exec_status_of_success rec_iccid a body t0 t1 :
  exec_status_of (expire_success rec_iccid a body t0 t1) = body_exec_status body.
Proof. reflexivity. Qed.

(** A first transport call that returns ends [expire_order] at once. *)
Lemma expire_order_first_ok pol tr rec_iccid fs m e uuid t0 t1 st body :
  tr (calls st) expire_endpoint (expire_payload rec_iccid fs m e uuid) = TOk body ->
  expire_order pol tr rec_iccid fs m e uuid t0 t1 st =
  (Ok (expire_success rec_iccid 1 body t0 t1), mk_st (S (calls st)) (sleeps st)).
Proof.
  intros H. unfold expire_order. cbn [expire_loop].
  unfold bind, try_, make_request. rewrite H. reflexivity.
Qed.

Lemma failure_details_code es c :
  error_code_of es = Ok c -> exists msg, failure_details es = Ok (c, msg).
Proof.
  unfold failure_details, error_code_of.
  destruct (py_get es "statusCodeData" (JObj [])) as [sd|e|] eqn:E; simpl;
    try discriminate.
  destruct sd; simpl; try discriminate.
  intros H.
  destruct (assoc_last "subjectCode" kvs), (assoc_last "reasonCode" kvs);
    simpl in H; injection H as <-;
    destruct (assoc_last "message" kvs); eexists; reflexivity.
Qed.

(** ** The per-record loop of [_process_batch] *)

(** C1.  When the first transport call of a record returns a business
    failure whose composite code is "8.2.1/3.3", the record ends at once as
    SUCCESS with reason ALREADY_EXPIRED after one attempt, with a single
    transport call and no wait. *)
Theorem already_expired_first_attempt client_pol pol tr uuid t0 t1 rec_iccid st
    body es :
  (1 <= max_attempts pol)%Z ->
  tr (calls st) expire_endpoint
     (expire_payload rec_iccid "Unavailable" None None uuid) = TOk body ->
  body_exec_status body = Ok es ->
  py_get es "status" JNull = Ok (JStr "Failed") ->
  error_code_of es = Ok "8.2.1/3.3" ->
  exists r,
    process_record client_pol pol tr uuid t0 t1 rec_iccid st =
      (Ok r, mk_st (S (calls st)) (sleeps st)) /\
    status r = "SUCCESS" /\ success_reason r = Some "ALREADY_EXPIRED" /\
    retry_attempts r = 1%Z.
Proof.
  intros Hm Htr Hes Hst Hcode.
  destruct (failure_details_code _ _ Hcode) as [msg Hfd].
  set (st1 := mk_st (S (calls st)) (sleeps st)).
  set (r1 := set_response (set_attempts (initial_result rec_iccid) 1)
               (expire_success rec_iccid 1 body t0 t1)).
  assert (HB : attempt_body client_pol pol tr uuid t0 t1 rec_iccid 1
                 (initial_result rec_iccid) st =
               (Ok (Break (set_reason (set_status r1 "SUCCESS") "ALREADY_EXPIRED")), st1)).
  { unfold attempt_body.
    rewrite (bind_ok _ _ st (Ok (expire_success rec_iccid 1 body t0 t1)) st1)
      by (apply try_ok; [discriminate | apply expire_order_first_ok; exact Htr]).
    cbv beta iota.
    rewrite exec_status_of_success, Hes. cbn [res_bind]. rewrite Hst. cbn [res_bind].
    change (json_is_str (JStr "Failed") "Executed-Success") with false.
    change (json_is_str (JStr "Failed") "Failed") with true.
    cbv beta iota. rewrite Hfd.
    change (String.eqb "8.2.1/3.3" "8.2.1/3.3") with true.
    reflexivity. }
  unfold process_record.
  replace (Z.to_nat (max_attempts pol)) with (S (Z.to_nat (max_attempts pol - 1))) by lia.
  cbn [attempt_loop].
  rewrite (bind_ok _ _ _ _ _ (bind_ok _ _ _ _ _ HB)).
  eexists; split; [reflexivity|]. repeat split.
Qed.

Lemma already_expired_first_attempt_witness :
  exists r,
    process_record default_policy default_policy (fun _ _ _ => TOk expired_body)
      "u" "t0" "t1" "89238010000101567890" (mk_st 0 []) = (Ok r, mk_st 1 []) /\
    status r = "SUCCESS" /\ success_reason r = Some "ALREADY_EXPIRED" /\
    retry_attempts r = 1%Z.
Proof.
  exact (already_expired_first_attempt default_policy default_policy
           (fun _ _ _ => TOk expired_body) "u" "t0" "t1" "89238010000101567890"
           (mk_st 0 []) expired_body
           (JObj [("status", JStr "Failed");
                  ("statusCodeData",
                   JObj [("subjectCode", JStr "8.2.1"); ("reasonCode", JStr "3.3");
                         ("message", JStr "Expire Order not Exist")])])
           ltac:(vm_compute; discriminate) eq_refl eq_refl eq_refl eq_refl).
Defined.

(** C8.  When the transport call of an attempt returns a body whose
    execution status is absent, unreadable or neither "Executed-Success"
    nor "Failed", that attempt ends the record as FAILED with that attempt
    number, whatever attempts the policy still allows: one transport call,
    no wait, no further attempt. *)
Theorem unrecognized_status_fails_at_once client_pol pol tr uuid t0 t1 rec_iccid
    n attempt r st body :
  tr (calls st) expire_endpoint
     (expire_payload rec_iccid "Unavailable" None None uuid) = TOk body ->
  (forall v, body_status body = Ok v ->
     json_is_str v "Executed-Success" = false /\ json_is_str v "Failed" = false) ->
  exists fl,
    attempt_loop client_pol pol tr uuid t0 t1 rec_iccid (S n) attempt r st =
      (Ok fl, mk_st (S (calls st)) (sleeps st)) /\
    status (finalize fl) = "FAILED" /\ retry_attempts (finalize fl) = attempt.
Proof.
  intros Htr Hv.
  set (st1 := mk_st (S (calls st)) (sleeps st)).
  assert (HB : exists fl,
    attempt_body client_pol pol tr uuid t0 t1 rec_iccid attempt r st = (Ok fl, st1) /\
    match fl with
    | Continue _ => False
    | _ => status (finalize fl) = "FAILED" /\ retry_attempts (finalize fl) = attempt
    end).
  { unfold attempt_body.
    rewrite (bind_ok _ _ st (Ok (expire_success rec_iccid 1 body t0 t1)) st1)
      by (apply try_ok; [discriminate | apply expire_order_first_ok; exact Htr]).
    cbv beta iota. rewrite exec_status_of_success.
    destruct (body_exec_status_cases body) as [[es Hes]|[e [Hes He]]];
      rewrite Hes; cbn [res_bind].
    - destruct (py_get es "status" JNull) as [v|e|] eqn:E; cbn [res_bind].
      + destruct (Hv v) as [H1 H2].
        { unfold body_status. rewrite Hes. exact E. }
        rewrite H1, H2. eexists; split; [reflexivity|]. split; reflexivity.
      + unfold on_rsp_error. rewrite (py_get_raise _ _ _ _ E).
        eexists; split; [reflexivity|]. split; reflexivity.
      + exfalso; eapply py_get_not_bound; eauto.
    - unfold on_rsp_error. rewrite He.
      eexists; split; [reflexivity|]. split; reflexivity. }
  destruct HB as [fl [HB HP]].
  cbn [attempt_loop]. rewrite (bind_ok _ _ _ _ _ HB).
  destruct fl; [contradiction| |]; eexists; (split; [reflexivity | exact HP]).
Qed.

Lemma unrecognized_status_fails_at_once_witness :
  exists fl,
    attempt_loop default_policy default_policy (fun _ _ _ => TOk (JObj []))
      "u" "t0" "t1" "89238010000101567890" 3 1
      (initial_result "89238010000101567890") (mk_st 0 []) =
      (Ok fl, mk_st 1 []) /\
    status (finalize fl) = "FAILED" /\ retry_attempts (finalize fl) = 1%Z.
Proof.
  apply (unrecognized_status_fails_at_once default_policy default_policy
           (fun _ _ _ => TOk (JObj [])) "u" "t0" "t1" "89238010000101567890"
           2 1 (initial_result "89238010000101567890") (mk_st 0 []) (JObj [])).
  - reflexivity.
  - intros v Hv. vm_compute in Hv. injection Hv as <-. split; reflexivity.
Defined.

(** ** [expire_order] returns a result dictionary *)

Lemma next_delay_value p n d : next_delay p n = Ok d -> d = delay_value p n.
Proof.
  unfold next_delay, delay_value. cbv zeta.
  destruct (pow_overflows _); [discriminate|]. intros H. injection H as <-.
  f_equal. f_equal. destruct (Z.leb_spec n 0); lia.
Qed.

Lemma next_delay_raise p n e :
  next_delay p n = Raise e -> is_rsp_client_error e = false.
Proof.
  unfold next_delay. destruct (pow_overflows _); [|discriminate].
  intros H. injection H as <-. reflexivity.
Qed.

Lemma next_delay_not_bound p n : next_delay p n <> LoopBound.
Proof. unfold next_delay. destruct (pow_overflows _); discriminate. Qed.

Lemma py_sleep_ok d st :
  sleepable d = true -> py_sleep d st = (Ok tt, mk_st (calls st) (d :: sleeps st)).
Proof.
  unfold sleepable, py_sleep. intros H. apply andb_true_iff in H as [H1 H2].
  apply negb_true_iff in H2. rewrite H1, H2. reflexivity.
Qed.

Lemma py_sleep_fail d st :
  sleepable d = false ->
  exists e, py_sleep d st = (Raise e, st) /\ is_rsp_client_error e = false.
Proof.
  unfold sleepable, py_sleep. intros H.
  destruct (sleep_overflows d); [eexists; split; reflexivity|].
  destruct (Qle_bool 0 d); [discriminate|eexists; split; reflexivity].
Qed.

(** The [delay = next_delay(attempt); time.sleep(delay)] step of a retry
    loop, followed by [k]. *)
Lemma delay_sleep_bind {B} p n (k : unit -> M B) st :
  (delay_sleepable p n = true /\
   bind (lift (next_delay p n)) (fun delay => bind (py_sleep delay) k) st =
   k tt (mk_st (calls st) (delay_value p n :: sleeps st))) \/
  (delay_sleepable p n = false /\
   exists e, bind (lift (next_delay p n)) (fun delay => bind (py_sleep delay) k) st =
             (Raise e, st) /\ is_rsp_client_error e = false).
Proof.
  unfold delay_sleepable.
  destruct (next_delay p n) as [d|e|] eqn:E.
  - rewrite (bind_ok _ _ st d st) by reflexivity.
    pose proof (next_delay_value _ _ _ E) as ->.
    destruct (sleepable (delay_value p n)) eqn:S.
    + left. split; [reflexivity|]. apply bind_ok, py_sleep_ok, S.
    + right. split; [reflexivity|].
      destruct (py_sleep_fail _ st S) as (e & P & He).
      exists e. split; [|exact He]. unfold bind. rewrite P. reflexivity.
  - right. split; [reflexivity|]. exists e. split; [reflexivity|].
    eapply next_delay_raise; eauto.
  - exfalso; eapply next_delay_not_bound; eauto.
Qed.

Lemma try_delay_sleep_cases p n st :
  (delay_sleepable p n = true /\
   try_ (delay <- lift (next_delay p n) ;; py_sleep delay) st =
   (Ok (Ok tt), mk_st (calls st) (delay_value p n :: sleeps st))) \/
  (delay_sleepable p n = false /\
   exists e, try_ (delay <- lift (next_delay p n) ;; py_sleep delay) st =
             (Ok (Raise e), st) /\ is_rsp_client_error e = false).
Proof.
  unfold delay_sleepable, try_.
  destruct (next_delay p n) as [d|e|] eqn:E.
  - pose proof (next_delay_value _ _ _ E) as ->.
    unfold bind, lift. cbv beta iota.
    destruct (sleepable (delay_value p n)) eqn:S.
    + left. rewrite (py_sleep_ok _ _ S). split; reflexivity.
    + right. destruct (py_sleep_fail _ st S) as (e & P & He). rewrite P.
      split; [reflexivity|]. exists e. split; [reflexivity|exact He].
  - right. split; [reflexivity|]. exists e. split; [reflexivity|].
    eapply next_delay_raise; eauto.
  - exfalso; eapply next_delay_not_bound; eauto.
Qed.

Lemma retry_delays_ok_at p n :
  retry_delays_ok p = true -> (1 <= n < max_attempts p)%Z ->
  delay_sleepable p n = true.
Proof.
  unfold retry_delays_ok. intros H Hn.
  rewrite forallb_forall in H.
  replace n with (Z.of_nat (Z.to_nat n)) by lia.
  apply H. apply in_seq. lia.
Qed.

Lemma expire_loop_total pol tr rec_iccid payload t0 t1 :
  forall fuel attempts st,
  (0 <= attempts)%Z -> (0 < fuel)%nat ->
  (max_attempts pol - attempts <= Z.of_nat fuel)%Z ->
  exists r st',
    expire_loop pol tr rec_iccid payload t0 t1 fuel attempts st = (r, st') /\
    (calls st < calls st')%nat /\
    match r with
    | Ok d =>
        (exists a body, d = expire_success rec_iccid a body t0 t1 /\ (1 <= a)%Z /\
           tr (pred (calls st')) expire_endpoint payload = TOk body) \/
        (exists a exc, d = expire_failed rec_iccid a (exc_msg exc) t0 t1 /\
           (1 <= a)%Z /\
           tr (pred (calls st')) expire_endpoint payload = TExc exc)
    | Raise e =>
        is_rsp_client_error e = false /\
        exists n, (attempts < n < max_attempts pol)%Z /\ delay_sleepable pol n = false
    | LoopBound => False
    end.
Proof.
  intros fuel; induction fuel as [|f IH]; intros attempts st Ha Hf Hm;
    [lia|].
  set (st1 := mk_st (S (calls st)) (sleeps st)).
  cbn [expire_loop].
  destruct (tr (calls st) expire_endpoint payload) as [body|exc] eqn:T.
  - rewrite (bind_ok _ _ st (Ok body) st1)
      by (apply try_ok; [discriminate | unfold make_request; rewrite T; reflexivity]).
    cbv beta iota. do 2 eexists; split; [reflexivity|]. split; [simpl; lia|].
    left. exists (attempts + 1)%Z, body. repeat split; [lia | exact T].
  - rewrite (bind_ok _ _ st (Raise exc) st1)
      by (apply try_ok; [discriminate | unfold make_request; rewrite T; reflexivity]).
    cbv beta iota.
    destruct (can_retry pol (attempts + 1)) eqn:C.
    + unfold can_retry in C. apply Z.ltb_lt in C.
      destruct (delay_sleep_bind pol (attempts + 1)
                  (fun _ => expire_loop pol tr rec_iccid payload t0 t1 f (attempts + 1))
                  st1) as [[S E]|[S (e & E & He)]]; rewrite E.
      * destruct (IH (attempts + 1)%Z
                    (mk_st (calls st1) (delay_value pol (attempts + 1) :: sleeps st1)))
          as (r & st' & E' & Hc & Hr); [lia | lia | lia |].
        exists r, st'. split; [exact E'|]. split; [simpl in Hc; lia|].
        destruct r as [d|e|]; [exact Hr| |exact Hr].
        destruct Hr as (He & n & Hn & Hs). split; [exact He|].
        exists n. split; [lia | exact Hs].
      * exists (Raise e), st1. split; [reflexivity|]. split; [simpl; lia|].
        split; [exact He|]. exists (attempts + 1)%Z. split; [lia | exact S].
    + do 2 eexists; split; [reflexivity|]. split; [simpl; lia|].
      right. exists (attempts + 1)%Z, exc. repeat split; [lia | exact T].
Qed.

(** C10 (corrected).  [expire_order] never raises, whatever the remote
    side does, as long as every delay it may sleep, [next_delay] of the
    attempts [1 .. max_attempts - 1], is computed without overflow and is
    accepted by [time.sleep] (non-negative and below about 9.22e9
    seconds): it returns the "success" dictionary of the last call, or the
    "failed" dictionary whose "error" is the message of the exception of
    the last call; "attempts" is at least 1 and at least one call is
    made. *)
Theorem expire_order_never_raises pol tr rec_iccid fs m e uuid t0 t1 st :
  retry_delays_ok pol = true ->
  exists d st',
    expire_order pol tr rec_iccid fs m e uuid t0 t1 st = (Ok d, st') /\
    (calls st < calls st')%nat /\
    ((exists a body,
        d = expire_success rec_iccid a body t0 t1 /\
        py_get d "status" JNull = Ok (JStr "success") /\
        py_get d "attempts" JNull = Ok (JNum a) /\ (1 <= a)%Z /\
        tr (pred (calls st')) expire_endpoint
           (expire_payload rec_iccid fs m e uuid) = TOk body) \/
     (exists a exc,
        d = expire_failed rec_iccid a (exc_msg exc) t0 t1 /\
        py_get d "status" JNull = Ok (JStr "failed") /\
        py_get d "attempts" JNull = Ok (JNum a) /\ (1 <= a)%Z /\
        py_get d "error" JNull = Ok (JStr (exc_msg exc)) /\
        tr (pred (calls st')) expire_endpoint
           (expire_payload rec_iccid fs m e uuid) = TExc exc)).
Proof.
  intros Hok.
  destruct (expire_loop_total pol tr rec_iccid (expire_payload rec_iccid fs m e uuid)
              t0 t1 (S (Z.to_nat (max_attempts pol))) 0 st)
    as (r & st' & E & Hc & Hr); [lia | lia | lia |].
  destruct r as [d|x|]; [|exfalso|contradiction].
  - exists d, st'. split; [exact E|]. split; [exact Hc|].
    destruct Hr as [(a & body & -> & Ha & T) | (a & exc & -> & Ha & T)].
    + left. exists a, body. repeat split; assumption.
    + right. exists a, exc. repeat split; assumption.
  - destruct Hr as (_ & n & Hn & Hs).
    rewrite (retry_delays_ok_at pol n Hok ltac:(lia)) in Hs. discriminate.
Qed.

(** C10 (counterexample).  With [RetryPolicy(max_attempts=2,
    delay_seconds=1e10, backoff_factor=1.0)] and a remote side that raises,
    the first call fails, [next_delay(1)] is [1e10] and [time.sleep(1e10)]
    raises [OverflowError] out of [expire_order]. *)
Lemma expire_order_sleep_overflow_counterexample :
  expire_order (mk_policy 2 10000000000 1) (always_raise "API request failed")
    "89238010000101567890" "Unavailable" None None "u" "t0" "t1" (mk_st 0 []) =
  (Raise (mk_exc OverflowError "timestamp too large to convert to C _PyTime_t"),
   mk_st 1 []).
Proof. vm_compute. reflexivity. Qed.

Lemma expire_order_never_raises_witness :
  exists d st',
    expire_order default_policy (always_raise "API request failed") "89238010000101567890"
      "Unavailable" None None "u" "t0" "t1" (mk_st 0 []) = (Ok d, st') /\
    (0 < calls st')%nat /\
    ((exists a body,
        d = expire_success "89238010000101567890" a body "t0" "t1" /\
        py_get d "status" JNull = Ok (JStr "success") /\
        py_get d "attempts" JNull = Ok (JNum a) /\ (1 <= a)%Z /\
        always_raise "API request failed" (pred (calls st')) expire_endpoint
          (expire_payload "89238010000101567890" "Unavailable" None None "u") = TOk body) \/
     (exists a exc,
        d = expire_failed "89238010000101567890" a (exc_msg exc) "t0" "t1" /\
        py_get d "status" JNull = Ok (JStr "failed") /\
        py_get d "attempts" JNull = Ok (JNum a) /\ (1 <= a)%Z /\
        py_get d "error" JNull = Ok (JStr (exc_msg exc)) /\
        always_raise "API request failed" (pred (calls st')) expire_endpoint
          (expire_payload "89238010000101567890" "Unavailable" None None "u") = TExc exc)).
Proof.
  apply (expire_order_never_raises default_policy (always_raise "API request failed")
           "89238010000101567890" "Unavailable" None None "u" "t0" "t1" (mk_st 0 [])).
  vm_compute. reflexivity.
Defined.

(** C2 (code defect).  With [max_attempts = 3] in both policies and a
    transport that always raises, [expire_order] alone makes the 3 calls
    and returns "failed" with "attempts" 3, but it never raises, so the
    [except RSPClientError] branch of [_process_batch] is never taken: the
    record ends FAILED after its first attempt, with [retry_attempts = 1]
    and the message "Unexpected API status: None". *)
Theorem transport_failure_outcome :
  expire_order default_policy (always_raise "API request failed")
    "89238010000101567890" "Unavailable" None None "u" "t0" "t1" (mk_st 0 []) =
    (Ok (expire_failed "89238010000101567890" 3 "API request failed" "t0" "t1"),
     mk_st 3 [10; 5]) /\
  exists r st',
    process_record default_policy default_policy (always_raise "API request failed")
      "u" "t0" "t1" "89238010000101567890" (mk_st 0 []) = (Ok r, st') /\
    calls st' = 3%nat /\ status r = "FAILED" /\ retry_attempts r = 1%Z /\
    error_message r = Some "Unexpected API status: None".
Proof.
  split; [vm_compute; reflexivity|].
  do 2 eexists; split; [vm_compute; reflexivity|]. repeat split.
Qed.

(** ** Further properties of the code *)

Lemma luhn_loop_app p i s t tot :
  luhn_loop p i (s ++ t) tot =
  res_bind (luhn_loop p i s tot) (fun x => luhn_loop p (i + String.length s) t x).
Proof.
  revert i tot; induction s as [|c r IH]; intros i tot; simpl.
  - now rewrite Nat.add_0_r.
  - destruct (py_int_char c) as [d|e|]; simpl; [|reflexivity|reflexivity].
    rewrite IH. now rewrite Nat.add_succ_r.
Qed.

Lemma luhn_loop_digits p i s tot :
  all_chars is_ascii_digit s = true -> exists T, luhn_loop p i s tot = Ok T.
Proof.
  revert i tot; induction s as [|c r IH]; intros i tot H; simpl; [eauto|].
  simpl in H; apply andb_true_iff in H as [Hc Hr].
  unfold py_int_char; rewrite Hc; simpl. apply IH, Hr.
Qed.

Lemma string_length_app s t :
  String.length (s ++ t) = (String.length s + String.length t)%nat.
Proof. induction s as [|c r IH]; simpl; [reflexivity | now rewrite IH]. Qed.

Lemma all_chars_app p s t : all_chars p (s ++ t) = all_chars p s && all_chars p t.
Proof.
  induction s as [|c r IH]; simpl; [reflexivity|]. rewrite IH. apply andb_assoc.
Qed.

Lemma mod2_succ_neq n : (Nat.modulo n 2 =? Nat.modulo (S n) 2)%nat = false.
Proof.
  apply Nat.eqb_neq. intros E.
  pose proof (Nat.div_mod_eq n 2). pose proof (Nat.div_mod_eq (S n) 2).
  pose proof (Nat.mod_upper_bound n 2). pose proof (Nat.mod_upper_bound (S n) 2).
  lia.
Qed.

Lemma digit_code c : is_ascii_digit c = true -> (48 <= code c <= 57)%nat.
Proof.
  unfold is_ascii_digit; intros H; apply andb_true_iff in H as [H1 H2].
  apply Nat.leb_le in H1; apply Nat.leb_le in H2; lia.
Qed.

(** The total of [luhn_valid] for a digit string followed by one digit. *)
Lemma luhn_valid_snoc s d :
  all_chars is_ascii_digit s = true -> is_ascii_digit d = true ->
  exists T, forall d', is_ascii_digit d' = true ->
    luhn_valid (s ++ String d' "") =
    Ok ((T + Z.of_nat (code d' - 48)) mod 10 =? 0)%Z.
Proof.
  intros Hs _.
  destruct (luhn_loop_digits (Nat.modulo (S (String.length s)) 2) 0 s 0 Hs) as [T HT].
  exists T. intros d' Hd'.
  unfold luhn_valid.
  assert (Hdig : py_isdigit (s ++ String d' "") = true).
  { destruct s as [|c r]; simpl.
    - unfold py_isdigit_char; now rewrite Hd'.
    - simpl in Hs; apply andb_true_iff in Hs as [Hc Hr].
      unfold py_isdigit_char at 1. rewrite Hc. simpl.
      rewrite all_chars_app. simpl. unfold py_isdigit_char at 2. rewrite Hd'. simpl.
      rewrite andb_true_r.
      apply (all_chars_impl is_ascii_digit); [|exact Hr].
      intros x Hx; unfold py_isdigit_char; now rewrite Hx. }
  rewrite Hdig. simpl negb. cbv iota.
  rewrite string_length_app. simpl String.length. rewrite Nat.add_1_r.
  rewrite luhn_loop_app, HT. cbn [res_bind luhn_loop].
  unfold py_int_char. rewrite Hd'. cbn [res_bind].
  rewrite Nat.add_0_l, mod2_succ_neq. reflexivity.
Qed.


(** For every string of ASCII digits there is exactly one ASCII digit
    that, appended, makes [luhn_valid] return [True]: the Luhn check digit
    exists and is unique. *)
Theorem luhn_check_digit s :
  all_chars is_ascii_digit s = true ->
  exists d, is_ascii_digit d = true /\ luhn_valid (s ++ String d "") = Ok true /\
  forall d', is_ascii_digit d' = true -> luhn_valid (s ++ String d' "") = Ok true ->
  d' = d.
Proof.
  intros Hs.
  destruct (luhn_valid_snoc s "0" Hs eq_refl) as [T HT].
  set (v := ((- T) mod 10)%Z).
  assert (Hv : (0 <= v < 10)%Z) by (apply Z.mod_pos_bound; lia).
  set (d := ascii_of_nat (48 + Z.to_nat v)).
  assert (Hcd : code d = (48 + Z.to_nat v)%nat).
  { unfold d, code. apply nat_ascii_embedding. lia. }
  assert (Hd : is_ascii_digit d = true).
  { unfold is_ascii_digit. rewrite Hcd. apply andb_true_iff; split; apply Nat.leb_le; lia. }
  exists d. split; [exact Hd|]. split.
  - rewrite (HT d Hd). f_equal. apply Z.eqb_eq.
    rewrite Hcd. replace (48 + Z.to_nat v - 48)%nat with (Z.to_nat v) by lia.
    rewrite Z2Nat.id by lia. unfold v.
    rewrite Zplus_mod_idemp_r. now replace (T + - T)%Z with 0%Z by lia.
  - intros d' Hd' Hv'. rewrite (HT d' Hd') in Hv'.
    injection Hv' as Hv'. apply Z.eqb_eq in Hv'.
    pose proof (digit_code d' Hd') as Hc'.
    assert (E : Z.of_nat (code d' - 48) = v).
    { unfold v.
      pose proof (Z.div_mod (T + Z.of_nat (code d' - 48)) 10 ltac:(lia)) as E1.
      pose proof (Z.div_mod (- T) 10 ltac:(lia)) as E2.
      rewrite Hv' in E1. fold v in E2. lia. }
    rewrite <- (ascii_nat_embedding d'), <- (ascii_nat_embedding d).
    f_equal. fold (code d') (code d). rewrite Hcd. lia.
Qed.

Lemma luhn_loop_raise p i s tot e :
  luhn_loop p i s tot = Raise e ->
  all_chars is_ascii_digit s = false /\ exc_cls e = ValueError.
Proof.
  revert i tot; induction s as [|c r IH]; intros i tot; simpl; [discriminate|].
  unfold py_int_char. destruct (is_ascii_digit c); simpl.
  - apply IH.
  - intros H; injection H as <-. split; reflexivity.
Qed.

Lemma luhn_loop_not_bound p i s tot : luhn_loop p i s tot <> LoopBound.
Proof.
  revert i tot; induction s as [|c r IH]; intros i tot; simpl; [discriminate|].
  unfold py_int_char. destruct (is_ascii_digit c); simpl; [apply IH | discriminate].
Qed.

Lemma luhn_valid_raise s e :
  luhn_valid s = Raise e ->
  py_isdigit s = true /\ all_chars is_ascii_digit s = false /\ exc_cls e = ValueError.
Proof.
  unfold luhn_valid. destruct (py_isdigit s); simpl; [|discriminate].
  destruct (luhn_loop _ 0 s 0) eqn:E; simpl; try discriminate.
  intros H; injection H as <-. apply luhn_loop_raise in E as [E1 E2]. auto.
Qed.

Lemma luhn_valid_not_bound s : luhn_valid s <> LoopBound.
Proof.
  unfold luhn_valid. destruct (py_isdigit s); simpl; [|discriminate].
  destruct (luhn_loop _ 0 s 0) eqn:E; simpl; try discriminate.
  exfalso; eapply luhn_loop_not_bound; eauto.
Qed.

Lemma is_esim_cases rg s :
  (exists b, is_esim rg (Some s) = Ok b) \/
  (exists e, is_esim rg (Some s) = Raise e /\
     luhn_valid (py_strip s) = Raise e /\
     py_isdigit (py_strip s) = true /\
     String.length (py_strip s) = S (String.length (range_start_s rg))).
Proof.
  unfold is_esim. destruct s as [|c r]; [left; eauto|].
  cbv zeta.
  destruct (negb (py_isdigit (py_strip (String c r)))) eqn:D; [left; eauto|].
  apply negb_false_iff in D.
  destruct (negb (py_isdigit (range_start_s rg) && py_isdigit (range_end_s rg)));
    [left; eauto|].
  destruct (_ && _)%nat; [left; eauto|].
  destruct (String.length (py_strip (String c r)) =?
            String.length (range_start_s rg) + 1)%nat eqn:L.
  - destruct (luhn_valid (py_strip (String c r))) as [b|e|] eqn:LV; cbn [res_bind].
    + left. destruct b; [eauto|].
      repeat match goal with |- context [py_int_digits ?x] => destruct (py_int_digits x) end; eauto.
    + right. exists e. apply Nat.eqb_eq in L. rewrite L, Nat.add_1_r. auto.
    + exfalso; eapply luhn_valid_not_bound; eauto.
  - cbn [res_bind]. left.
    repeat match goal with |- context [py_int_digits ?x] => destruct (py_int_digits x) end; eauto.
Qed.

(** [is_esim] raises only a ValueError, and only on an input whose
    stripped form passes [str.isdigit], holds a character outside '0'..'9'
    and is one character longer than the range start (the Luhn path, where
    [int] rejects that character). *)
Theorem is_esim_raises_only_on_superscripts rg s e :
  is_esim rg (Some s) = Raise e ->
  exc_cls e = ValueError /\
  py_isdigit (py_strip s) = true /\
  all_chars is_ascii_digit (py_strip s) = false /\
  String.length (py_strip s) = S (String.length (range_start_s rg)).
Proof.
  intros H. destruct (is_esim_cases rg s) as [[b Hb]|[e' (He & LV & D & L)]].
  - congruence.
  - rewrite H in He; injection He as <-.
    apply luhn_valid_raise in LV as (_ & A & C). auto.
Qed.

Lemma lstrip_idem s : lstrip (lstrip s) = lstrip s.
Proof.
  induction s as [|c r IH]; simpl; [reflexivity|].
  destruct (py_isspace_char c) eqn:E; [exact IH|]. simpl. now rewrite E.
Qed.

Lemma lstrip_length s : (String.length (lstrip s) <= String.length s)%nat.
Proof.
  induction s as [|c r IH]; simpl; [lia|].
  destruct (py_isspace_char c); simpl; lia.
Qed.

Lemma lstrip_suffix s : exists p, s = (p ++ lstrip s)%string.
Proof.
  induction s as [|c r [p IH]]; simpl; [exists ""; reflexivity|].
  destruct (py_isspace_char c).
  - exists (String c p). simpl. now rewrite <- IH.
  - exists "". reflexivity.
Qed.

Lemma lstrip_app_fixed x y : lstrip (x ++ y) = (x ++ y)%string -> lstrip x = x.
Proof.
  destruct x as [|c r]; simpl; [reflexivity|].
  destruct (py_isspace_char c); [|reflexivity].
  intros H. pose proof (lstrip_length (r ++ y)) as L.
  rewrite H in L. simpl in L. lia.
Qed.

Lemma string_app_assoc x y z : ((x ++ y) ++ z)%string = (x ++ (y ++ z))%string.
Proof. induction x as [|c r IH]; simpl; [reflexivity | now rewrite IH]. Qed.

Lemma rev_str_acc s acc : rev_str s acc = (rev_str s "" ++ acc)%string.
Proof.
  revert acc; induction s as [|c r IH]; intros acc; simpl; [reflexivity|].
  rewrite (IH (String c acc)), (IH (String c "")).
  rewrite string_app_assoc. reflexivity.
Qed.

Lemma rev_str_app x y acc : rev_str (x ++ y) acc = rev_str y (rev_str x acc).
Proof.
  revert acc; induction x as [|c r IH]; intros acc; simpl; [reflexivity | apply IH].
Qed.

Lemma rev_str_invol s : rev_str (rev_str s "") "" = s.
Proof. rewrite rev_str_rev_str. simpl. apply append_empty_r. Qed.

Lemma py_strip_idem s : py_strip (py_strip s) = py_strip s.
Proof.
  unfold py_strip at 2.
  set (a := lstrip s). set (u := lstrip (rev_str a "")).
  destruct (lstrip_suffix (rev_str a "")) as [p Hp]. fold u in Hp.
  assert (Ha : a = (rev_str u "" ++ rev_str p "")%string).
  { rewrite <- (rev_str_invol a), Hp, rev_str_app, rev_str_acc. reflexivity. }
  assert (Ht : lstrip (rev_str u "") = rev_str u "").
  { apply (lstrip_app_fixed _ (rev_str p "")). rewrite <- Ha. apply lstrip_idem. }
  unfold py_strip. rewrite Ht, rev_str_invol. unfold u at 1. rewrite lstrip_idem.
  reflexivity.
Qed.

(** [is_esim] gives the same outcome on a string and on the string
    with its surrounding whitespace stripped. *)
Theorem is_esim_strip_invariant rg s :
  is_esim rg (Some s) = is_esim rg (Some (py_strip s)).
Proof.
  destruct s as [|c r]; [reflexivity|].
  pose proof (py_strip_idem (String c r)) as I.
  destruct (py_strip (String c r)) as [|c' r'] eqn:E.
  - unfold is_esim at 1. rewrite E. reflexivity.
  - unfold is_esim at 1 2. rewrite E, I. reflexivity.
Qed.

Lemma delays_from_shift p a n :
  delays_from p a (S n) = app (delays_from p (a + 1) n) [delay_value p (a + 1)].
Proof.
  induction n as [|n IH].
  - reflexivity.
  - change (delays_from p a (S (S n))) with
      (delay_value p (a + Z.of_nat (S (S n))) :: delays_from p a (S n)).
    rewrite IH. simpl. f_equal. f_equal. lia.
Qed.

Lemma expire_loop_trace pol tr rec_iccid payload t0 t1 :
  forall fuel a st d st',
  expire_loop pol tr rec_iccid payload t0 t1 fuel a st = (Ok d, st') ->
  exists k,
    calls st' = (calls st + S k)%nat /\
    ((0 < k)%nat -> (a + Z.of_nat (S k) <= max_attempts pol)%Z) /\
    sleeps st' = app (delays_from pol a k) (sleeps st) /\
    (forall j, (j < k)%nat ->
       exists exc, tr (calls st + j)%nat expire_endpoint payload = TExc exc) /\
    ((exists body, d = expire_success rec_iccid (a + Z.of_nat (S k)) body t0 t1 /\
        tr (calls st + k)%nat expire_endpoint payload = TOk body) \/
     (exists exc, d = expire_failed rec_iccid (a + Z.of_nat (S k)) (exc_msg exc) t0 t1 /\
        (max_attempts pol <= a + Z.of_nat (S k))%Z /\
        tr (calls st + k)%nat expire_endpoint payload = TExc exc)).
Proof.
  intros fuel; induction fuel as [|f IH]; intros a st d st' H; [discriminate|].
  set (st1 := mk_st (S (calls st)) (sleeps st)).
  cbn [expire_loop] in H.
  destruct (tr (calls st) expire_endpoint payload) as [body|exc] eqn:T.
  - rewrite (bind_ok _ _ st (Ok body) st1) in H
      by (apply try_ok; [discriminate | unfold make_request; rewrite T; reflexivity]).
    cbv beta iota in H. unfold ret in H. injection H as <- <-.
    exists 0%nat. split; [simpl; lia|]. split; [lia|]. split; [reflexivity|].
    split; [intros; lia|].
    left. exists body. split; [f_equal; lia|]. now rewrite Nat.add_0_r.
  - rewrite (bind_ok _ _ st (Raise exc) st1) in H
      by (apply try_ok; [discriminate | unfold make_request; rewrite T; reflexivity]).
    cbv beta iota in H.
    destruct (can_retry pol (a + 1)) eqn:C.
    + unfold can_retry in C. apply Z.ltb_lt in C.
      destruct (delay_sleep_bind pol (a + 1)
                  (fun _ => expire_loop pol tr rec_iccid payload t0 t1 f (a + 1))
                  st1) as [[_ E]|[_ (e & E & _)]]; rewrite E in H; [|discriminate].
      apply IH in H as (k & Hc & Hb & Hs & Hj & Hr).
      exists (S k). simpl in Hc, Hs.
      split; [lia|]. split.
      { intros _. destruct k as [|k]; [lia|].
        specialize (Hb ltac:(lia)). lia. }
      split.
      { rewrite Hs, delays_from_shift, <- app_assoc. reflexivity. }
      split.
      { intros [|j] Hjk; [exists exc; now rewrite Nat.add_0_r|].
        destruct (Hj j ltac:(lia)) as [e He]. exists e.
        now replace (calls st + S j)%nat with (S (calls st) + j)%nat by lia. }
      replace (calls st + S k)%nat with (S (calls st) + k)%nat by lia.
      replace (a + Z.of_nat (S (S k)))%Z with (a + 1 + Z.of_nat (S k))%Z by lia.
      exact Hr.
    + unfold ret in H. injection H as <- <-.
      unfold can_retry in C. apply Z.ltb_ge in C.
      exists 0%nat. split; [simpl; lia|]. split; [lia|]. split; [reflexivity|].
      split; [intros; lia|].
      right. exists exc. split; [f_equal; lia|]. split; [lia|].
      now rewrite Nat.add_0_r.
Qed.

(** Whenever [expire_order] returns a dictionary [d], it has made
    [k + 1] calls for some [k] with [k + 1 <= max(1, max_attempts)],
    [d["attempts"]] is [k + 1], the first [k] calls raised, it slept
    [next_delay] of attempts 1..k and nothing else, and [d] is the success
    dictionary with the body of the last call or the failure dictionary
    with the message of the exception of the last call. *)
Theorem expire_order_trace pol tr rec_iccid fs m e uuid t0 t1 st d st' :
  expire_order pol tr rec_iccid fs m e uuid t0 t1 st = (Ok d, st') ->
  exists k,
    calls st' = (calls st + S k)%nat /\
    (Z.of_nat (S k) <= Z.max 1 (max_attempts pol))%Z /\
    py_get d "attempts" JNull = Ok (JNum (Z.of_nat (S k))) /\
    sleeps st' = app (delays_from pol 0 k) (sleeps st) /\
    (forall j, (j < k)%nat ->
       exists exc, tr (calls st + j)%nat expire_endpoint
                     (expire_payload rec_iccid fs m e uuid) = TExc exc) /\
    ((exists body, d = expire_success rec_iccid (Z.of_nat (S k)) body t0 t1 /\
        tr (calls st + k)%nat expire_endpoint (expire_payload rec_iccid fs m e uuid)
        = TOk body) \/
     (exists exc, d = expire_failed rec_iccid (Z.of_nat (S k)) (exc_msg exc) t0 t1 /\
        tr (calls st + k)%nat expire_endpoint (expire_payload rec_iccid fs m e uuid)
        = TExc exc)).
Proof.
  unfold expire_order. intros H.
  apply expire_loop_trace in H as (k & Hc & Hb & Hs & Hj & Hr).
  exists k. split; [exact Hc|]. split.
  { destruct k as [|k]; [lia|]. specialize (Hb ltac:(lia)). lia. }
  destruct Hr as [(body & -> & T) | (exc & -> & _ & T)].
  - split; [reflexivity|]. split; [exact Hs|]. split; [exact Hj|].
    left. exists body. split; [f_equal|exact T].
  - split; [reflexivity|]. split; [exact Hs|]. split; [exact Hj|].
    right. exists exc. split; [f_equal|exact T].
Qed.

(** When every delay the policy may sleep is computed and accepted by
    [time.sleep] and the remote side raises on every call, [expire_order]
    makes [max(1, max_attempts)] calls, sleeps after
    each of them but the last, and returns the failure dictionary with that
    attempt count and the message of the last exception. *)
Theorem expire_order_all_calls_fail pol tr rec_iccid fs m e uuid t0 t1 st :
  retry_delays_ok pol = true ->
  (forall n, exists exc,
     tr n expire_endpoint (expire_payload rec_iccid fs m e uuid) = TExc exc) ->
  exists exc,
    expire_order pol tr rec_iccid fs m e uuid t0 t1 st =
      (Ok (expire_failed rec_iccid (Z.max 1 (max_attempts pol)) (exc_msg exc) t0 t1),
       mk_st (calls st + Z.to_nat (Z.max 1 (max_attempts pol)))%nat
             (app (delays_from pol 0 (Z.to_nat (Z.max 1 (max_attempts pol)) - 1))
                  (sleeps st))) /\
    tr (calls st + Z.to_nat (Z.max 1 (max_attempts pol)) - 1)%nat expire_endpoint
       (expire_payload rec_iccid fs m e uuid) = TExc exc.
Proof.
  intros Hok Hall.
  destruct (expire_loop_total pol tr rec_iccid (expire_payload rec_iccid fs m e uuid)
              t0 t1 (S (Z.to_nat (max_attempts pol))) 0 st)
    as (r & st' & E & _ & Hr0); [lia | lia | lia |].
  destruct r as [d|x|]; [|exfalso|contradiction].
  2: { destruct Hr0 as (_ & n & Hn & Hs).
       rewrite (retry_delays_ok_at pol n Hok ltac:(lia)) in Hs. discriminate. }
  clear Hr0. pose proof E as E'. unfold expire_order in E'.
  apply expire_loop_trace in E' as (k & Hc & Hbd & Hs & _ & Hr).
  destruct Hr as [(body & _ & T) | (exc & Hd' & Hm & T)].
  { destruct (Hall (calls st + k)%nat) as [x Hx]. congruence. }
  assert (K : Z.of_nat (S k) = Z.max 1 (max_attempts pol)).
  { destruct k as [|k]; [lia|]. specialize (Hbd ltac:(lia)). lia. }
  assert (K' : Z.to_nat (Z.max 1 (max_attempts pol)) = S k) by lia.
  exists exc. rewrite K'. split.
  - unfold expire_order. rewrite E. rewrite Hd'.
    replace (0 + Z.of_nat (S k))%Z with (Z.max 1 (max_attempts pol)) by lia.
    destruct st' as [c s]. simpl in Hc, Hs. subst c s.
    replace (S k - 1)%nat with k by lia. reflexivity.
  - replace (calls st + S k - 1)%nat with (calls st + k)%nat by lia. exact T.
Qed.

Lemma exec_status_pair_not_bound d :
  res_bind (exec_status_of d)
    (fun es => s <-? py_get es "status" JNull ;; Ok (es, s)) <> LoopBound.
Proof.
  unfold exec_status_of.
  destruct (py_get d "response" (JObj [])) as [x|e|] eqn:E1; cbn [res_bind];
    [|discriminate|exfalso; eapply py_get_not_bound; eauto].
  destruct (py_get x "header" (JObj [])) as [y|e|] eqn:E2; cbn [res_bind];
    [|discriminate|exfalso; eapply py_get_not_bound; eauto].
  destruct (py_get y "functionExecutionStatus" (JObj [])) as [z|e|] eqn:E3;
    cbn [res_bind]; [|discriminate|exfalso; eapply py_get_not_bound; eauto].
  destruct (py_get z "status" JNull) as [w|e|] eqn:E4; cbn [res_bind];
    [discriminate|discriminate|exfalso; eapply py_get_not_bound; eauto].
Qed.

Lemma failure_details_not_bound es : failure_details es <> LoopBound.
Proof.
  unfold failure_details, error_code_of.
  destruct (py_get es "statusCodeData" (JObj [])) as [sd|e|] eqn:E; cbn [res_bind];
    [|discriminate|exfalso; eapply py_get_not_bound; eauto].
  destruct sd; cbn; try discriminate.
  destruct (assoc_last "subjectCode" kvs), (assoc_last "reasonCode" kvs),
    (assoc_last "message" kvs); discriminate.
Qed.

Lemma on_rsp_error_spec pol a r e st :
  (is_rsp_client_error e = false -> retry_attempts r = a) ->
  exists fl st', on_rsp_error pol a r e st = (Ok fl, st') /\ calls st' = calls st /\
    iccid (finalize fl) = iccid r /\ retry_attempts (finalize fl) = a /\
    match fl with
    | Continue r' => ((a < max_attempts pol)%Z -> status r' = status r) /\
                     ((max_attempts pol <= a)%Z -> status r' = "FAILED")
    | _ => status (finalize fl) = "SUCCESS" \/ status (finalize fl) = "FAILED"
    end.
Proof.
  intros Ha. unfold on_rsp_error.
  destruct (is_rsp_client_error e) eqn:R.
  - destruct (max_attempts pol <=? a)%Z eqn:M.
    + apply Z.leb_le in M. do 2 eexists; split; [reflexivity|].
      repeat split; intros; try reflexivity; lia.
    + apply Z.leb_gt in M.
      destruct (try_delay_sleep_cases pol a st) as [[_ S]|[_ (e' & S & _)]].
      * rewrite (bind_ok _ _ _ _ _ S). do 2 eexists; split; [reflexivity|].
        repeat split; intros; try reflexivity; lia.
      * rewrite (bind_ok _ _ _ _ _ S). do 2 eexists; split; [reflexivity|].
        repeat split; right; reflexivity.
  - do 2 eexists; split; [reflexivity|]. repeat split; auto.
Qed.

Lemma attempt_body_spec cp pol tr uuid t0 t1 rec_iccid a r st :
  exists fl st',
    attempt_body cp pol tr uuid t0 t1 rec_iccid a r st = (Ok fl, st') /\
    (calls st < calls st')%nat /\
    iccid (finalize fl) = iccid r /\
    (retry_delays_ok cp = true -> retry_attempts (finalize fl) = a) /\
    match fl with
    | Continue r' => ((a < max_attempts pol)%Z -> status r' = status r) /\
                     ((max_attempts pol <= a)%Z -> status r' = "FAILED")
    | _ => status (finalize fl) = "SUCCESS" \/ status (finalize fl) = "FAILED"
    end.
Proof.
  destruct (expire_loop_total cp tr rec_iccid
              (expire_payload rec_iccid "Unavailable" None None uuid) t0 t1
              (S (Z.to_nat (max_attempts cp))) 0 st)
    as (x & st1 & E & Hc & Hx); [lia | lia | lia |].
  unfold attempt_body.
  destruct x as [d|ex|]; [| |contradiction].
  2: { destruct Hx as (He & n & Hn & Hs).
       rewrite (bind_ok _ _ st (Raise ex) st1) by (apply try_ok; [discriminate | exact E]).
       cbv beta iota. unfold on_rsp_error. rewrite He.
       do 2 eexists; split; [reflexivity|]. split; [exact Hc|]. split; [reflexivity|].
       split; [|right; reflexivity].
       intros Hok. rewrite (retry_delays_ok_at cp n Hok ltac:(lia)) in Hs. discriminate. }
  rewrite (bind_ok _ _ st (Ok d) st1) by (apply try_ok; [discriminate | exact E]).
  cbv beta iota.
  set (r1 := set_response (set_attempts r a) d).
  assert (OR : forall rr e, iccid rr = iccid r -> status rr = status r ->
             retry_attempts rr = a ->
             exists fl st',
               on_rsp_error pol a rr e st1 = (Ok fl, st') /\
               (calls st < calls st')%nat /\
               iccid (finalize fl) = iccid r /\
               (retry_delays_ok cp = true -> retry_attempts (finalize fl) = a) /\
               match fl with
               | Continue r' => ((a < max_attempts pol)%Z -> status r' = status r) /\
                                ((max_attempts pol <= a)%Z -> status r' = "FAILED")
               | _ => status (finalize fl) = "SUCCESS" \/
                      status (finalize fl) = "FAILED"
               end).
  { intros rr e Hi Hs Ha.
    destruct (on_rsp_error_spec pol a rr e st1 (fun _ => Ha))
      as (fl & st2 & E2 & Hc2 & Hi2 & Ha2 & Hm).
    exists fl, st2. split; [exact E2|]. split; [lia|].
    split; [congruence|]. split; [intros _; exact Ha2|].
    destruct fl; [|exact Hm|exact Hm]. rewrite <- Hs. exact Hm. }
  destruct (res_bind (exec_status_of d)
              (fun es => s <-? py_get es "status" JNull ;; Ok (es, s)))
    as [[es s]|e|] eqn:ES.
  - destruct (json_is_str s "Executed-Success").
    { do 2 eexists; split; [reflexivity|]. repeat split; auto. }
    destruct (json_is_str s "Failed").
    2: { do 2 eexists; split; [reflexivity|]. repeat split; auto. }
    destruct (failure_details es) as [[code msg]|e|] eqn:FD.
    3: { exfalso; eapply failure_details_not_bound; eauto. }
    2: { apply OR; reflexivity. }
    destruct (String.eqb code "8.2.1/3.3").
    { do 2 eexists; split; [reflexivity|]. repeat split; auto. }
    destruct (max_attempts pol <=? a)%Z eqn:M.
    { do 2 eexists; split; [reflexivity|]. repeat split; auto. }
    apply Z.leb_gt in M.
    destruct (try_delay_sleep_cases pol a st1) as [[_ S]|[_ (e' & S & _)]];
      rewrite (bind_ok _ _ _ _ _ S).
    + do 2 eexists; split; [reflexivity|]. simpl. repeat split; try lia.
    + apply OR; reflexivity.
  - apply OR; reflexivity.
  - exfalso; eapply exec_status_pair_not_bound; eauto.
Qed.

Lemma attempt_loop_spec cp pol tr uuid t0 t1 rec_iccid :
  forall n a r st,
  exists fl st',
    attempt_loop cp pol tr uuid t0 t1 rec_iccid n a r st = (Ok fl, st') /\
    iccid (finalize fl) = iccid r /\ (calls st <= calls st')%nat /\
    ((0 < n)%nat -> (a + Z.of_nat n - 1 = max_attempts pol)%Z ->
     (status (finalize fl) = "SUCCESS" \/ status (finalize fl) = "FAILED") /\
     (retry_delays_ok cp = true ->
      (a <= retry_attempts (finalize fl) <= max_attempts pol)%Z) /\
     (calls st < calls st')%nat).
Proof.
  intros n; induction n as [|n IH]; intros a r st.
  - exists (Continue r), st. split; [reflexivity|]. split; [reflexivity|].
    split; [lia|]. intros; lia.
  - destruct (attempt_body_spec cp pol tr uuid t0 t1 rec_iccid a r st)
      as (fl & st1 & E & Hc & Hi & Ha & Hm).
    cbn [attempt_loop]. rewrite (bind_ok _ _ _ _ _ E).
    destruct fl as [r'|r'|r' e].
    + destruct (IH (a + 1)%Z r' st1) as (fl2 & st2 & E2 & Hi2 & Hc2 & Hm2).
      rewrite E2. exists fl2, st2. split; [reflexivity|].
      split; [simpl in Hi; congruence|]. split; [lia|].
      intros _ Hn. destruct n as [|n].
      * simpl in E2. injection E2 as <- <-. simpl in Ha |- *.
        destruct Hm as [_ Hm]. split; [right; apply Hm; lia|].
        split; [intros Hok; specialize (Ha Hok); lia | lia].
      * destruct (Hm2 ltac:(lia) ltac:(lia)) as (Hs2 & Ha2 & Hc3).
        split; [exact Hs2|].
        split; [intros Hok; specialize (Ha2 Hok); lia | lia].
    + exists (Break r'), st1. split; [reflexivity|]. split; [exact Hi|].
      split; [lia|]. intros _ Hn. split; [exact Hm|].
      split; [intros Hok; specialize (Ha Hok); lia | lia].
    + exists (Escape r' e), st1. split; [reflexivity|]. split; [exact Hi|].
      split; [lia|]. intros _ Hn. split; [exact Hm|].
      split; [intros Hok; specialize (Ha Hok); lia | lia].
Qed.

Lemma process_record_spec cp pol tr uuid t0 t1 rec_iccid st :
  exists r st',
    process_record cp pol tr uuid t0 t1 rec_iccid st = (Ok r, st') /\
    iccid r = rec_iccid /\ (calls st <= calls st')%nat /\
    ((1 <= max_attempts pol)%Z ->
     (status r = "SUCCESS" \/ status r = "FAILED") /\
     (retry_delays_ok cp = true -> (1 <= retry_attempts r <= max_attempts pol)%Z) /\
     (calls st < calls st')%nat).
Proof.
  destruct (attempt_loop_spec cp pol tr uuid t0 t1 rec_iccid
              (Z.to_nat (max_attempts pol)) 1 (initial_result rec_iccid) st)
    as (fl & st' & E & Hi & Hc & Hm).
  unfold process_record. rewrite (bind_ok _ _ _ _ _ E).
  exists (finalize fl), st'. split; [reflexivity|]. split; [exact Hi|].
  split; [exact Hc|]. intros Hmax. apply Hm; lia.
Qed.

(** When every delay the client's policy may sleep is computed and
    accepted by [time.sleep], and [max_attempts >= 1], the processing of
    one record in [_process_batch] returns a result for that ICCID whose
    status is SUCCESS or FAILED, with [1 <= retry_attempts <=
    max_attempts], after at least one call. *)
Theorem process_record_outcome cp pol tr uuid t0 t1 rec_iccid st :
  retry_delays_ok cp = true -> (1 <= max_attempts pol)%Z ->
  exists r st',
    process_record cp pol tr uuid t0 t1 rec_iccid st = (Ok r, st') /\
    iccid r = rec_iccid /\ (status r = "SUCCESS" \/ status r = "FAILED") /\
    (1 <= retry_attempts r <= max_attempts pol)%Z /\ (calls st < calls st')%nat.
Proof.
  intros Hok Hm.
  destruct (process_record_spec cp pol tr uuid t0 t1 rec_iccid st)
    as (r & st' & E & Hi & _ & H).
  destruct (H Hm) as (Hs & Ha & Hc). specialize (Ha Hok).
  exists r, st'. auto.
Qed.

Lemma process_batch_spec cp pol tr uuid t0 t1 :
  forall batch st,
  exists rs st',
    process_batch cp pol tr uuid t0 t1 batch st = (Ok rs, st') /\
    map iccid rs = batch /\ (calls st <= calls st')%nat /\
    ((1 <= max_attempts pol)%Z ->
     Forall (fun r => status r = "SUCCESS" \/ status r = "FAILED") rs).
Proof.
  intros batch; induction batch as [|x rest IH]; intros st.
  - exists [], st. split; [reflexivity|]. split; [reflexivity|]. split; [lia|].
    constructor.
  - destruct (process_record_spec cp pol tr uuid t0 t1 x st)
      as (r & st1 & E1 & Hi & Hc & Hm).
    destruct (IH st1) as (rs & st2 & E2 & Hi2 & Hc2 & Hm2).
    cbn [process_batch]. rewrite (bind_ok _ _ _ _ _ E1), (bind_ok _ _ _ _ _ E2).
    exists (r :: rs), st2. split; [reflexivity|].
    split; [simpl; congruence|]. split; [lia|].
    intros Hmax. constructor; [apply Hm, Hmax | apply Hm2, Hmax].
Qed.

(** [_process_batch] never raises, whatever the policies and the remote
    side, and returns one result per ICCID of the batch, in batch order;
    with [max_attempts >= 1] each result is SUCCESS or FAILED. *)
Theorem process_batch_one_result_per_record cp pol tr uuid t0 t1 batch st :
  exists rs st',
    process_batch cp pol tr uuid t0 t1 batch st = (Ok rs, st') /\
    map iccid rs = batch /\
    ((1 <= max_attempts pol)%Z ->
     Forall (fun r => status r = "SUCCESS" \/ status r = "FAILED") rs).
Proof.
  destruct (process_batch_spec cp pol tr uuid t0 t1 batch st)
    as (rs & st' & E & Hi & _ & Hm).
  exists rs, st'. auto.
Qed.

Lemma business_failure_step cp pol tr uuid t0 t1 rec_iccid body es c msg a r st :
  ((a < max_attempts pol)%Z -> delay_sleepable pol a = true) ->
  tr (calls st) expire_endpoint
     (expire_payload rec_iccid "Unavailable" None None uuid) = TOk body ->
  body_exec_status body = Ok es ->
  py_get es "status" JNull = Ok (JStr "Failed") ->
  failure_details es = Ok (c, msg) -> c <> "8.2.1/3.3" ->
  let r1 := set_error (set_response (set_attempts r a)
                         (expire_success rec_iccid 1 body t0 t1))
              ("[" ++ c ++ "] " ++ py_str msg) in
  attempt_body cp pol tr uuid t0 t1 rec_iccid a r st =
  if (max_attempts pol <=? a)%Z
  then (Ok (Break (set_status r1 "FAILED")), mk_st (S (calls st)) (sleeps st))
  else (Ok (Continue r1), mk_st (S (calls st)) (delay_value pol a :: sleeps st)).
Proof.
  intros Hds Htr Hes Hst Hfd Hc r1.
  set (st1 := mk_st (S (calls st)) (sleeps st)).
  unfold attempt_body.
  rewrite (bind_ok _ _ st (Ok (expire_success rec_iccid 1 body t0 t1)) st1)
    by (apply try_ok; [discriminate | apply expire_order_first_ok; exact Htr]).
  cbv beta iota.
  rewrite exec_status_of_success, Hes. cbn [res_bind]. rewrite Hst. cbn [res_bind].
  change (json_is_str (JStr "Failed") "Executed-Success") with false.
  change (json_is_str (JStr "Failed") "Failed") with true.
  cbv beta iota. rewrite Hfd.
  apply String.eqb_neq in Hc. rewrite Hc.
  destruct (max_attempts pol <=? a)%Z eqn:M; [reflexivity|].
  apply Z.leb_gt in M.
  destruct (try_delay_sleep_cases pol a st1) as [[_ S]|[S _]];
    [|rewrite (Hds M) in S; discriminate].
  rewrite (bind_ok _ _ _ _ _ S). reflexivity.
Qed.

Lemma attempt_loop_S cp pol tr uuid t0 t1 rec_iccid n a r :
  attempt_loop cp pol tr uuid t0 t1 rec_iccid (S n) a r =
  (fl <- attempt_body cp pol tr uuid t0 t1 rec_iccid a r ;;
   match fl with
   | Continue r' => attempt_loop cp pol tr uuid t0 t1 rec_iccid n (a + 1) r'
   | _ => ret fl
   end).
Proof. reflexivity. Qed.

Lemma business_failure_loop cp pol tr uuid t0 t1 rec_iccid body es c msg :
  retry_delays_ok pol = true ->
  (forall n, tr n expire_endpoint
               (expire_payload rec_iccid "Unavailable" None None uuid) = TOk body) ->
  body_exec_status body = Ok es ->
  py_get es "status" JNull = Ok (JStr "Failed") ->
  failure_details es = Ok (c, msg) -> c <> "8.2.1/3.3" ->
  forall m a r st, (1 <= a)%Z -> (a + Z.of_nat m = max_attempts pol)%Z ->
  exists r',
    attempt_loop cp pol tr uuid t0 t1 rec_iccid (S m) a r st =
      (Ok (Break r'),
       mk_st (calls st + S m) (app (delays_from pol (a - 1) m) (sleeps st))) /\
    iccid r' = iccid r /\ status r' = "FAILED" /\
    retry_attempts r' = max_attempts pol /\
    error_message r' = Some ("[" ++ c ++ "] " ++ py_str msg).
Proof.
  intros Hok Htr Hes Hst Hfd Hc m; induction m as [|m IH]; intros a r st Ha Hm.
  all: assert (Hds : (a < max_attempts pol)%Z -> delay_sleepable pol a = true)
         by (intros; apply retry_delays_ok_at; [exact Hok | lia]).
  - rewrite attempt_loop_S.
    pose proof (business_failure_step cp pol tr uuid t0 t1 rec_iccid body es c msg a r st
               Hds (Htr _) Hes Hst Hfd Hc) as S.
    replace (max_attempts pol <=? a)%Z with true in S
      by (symmetry; apply Z.leb_le; lia).
    rewrite (bind_ok _ _ _ _ _ S). unfold ret.
    eexists; split; [f_equal; f_equal; lia|]. simpl. repeat split; lia.
  - rewrite attempt_loop_S.
    pose proof (business_failure_step cp pol tr uuid t0 t1 rec_iccid body es c msg a r st
               Hds (Htr _) Hes Hst Hfd Hc) as S.
    replace (max_attempts pol <=? a)%Z with false in S
      by (symmetry; apply Z.leb_gt; lia).
    rewrite (bind_ok _ _ _ _ _ S). cbv beta match.
    edestruct (IH (a + 1)%Z) as (r' & E & Hi & Hs & Ha' & He);
      [lia | lia |].
    rewrite E. exists r'. split.
    + f_equal. f_equal; [cbn [calls]; lia|]. cbn [sleeps].
      rewrite delays_from_shift, <- app_assoc.
      replace (a - 1 + 1)%Z with a by lia.
      replace (a + 1 - 1)%Z with a by lia. reflexivity.
    + split; [exact Hi|]. auto.
Qed.

(** When every delay the orchestrator's policy may sleep is computed and
    accepted by [time.sleep] and every call returns the execution status
    "Failed" with a code other than 8.2.1/3.3, the record uses all [max_attempts] attempts:
    one call each, [next_delay] of attempts 1..max_attempts-1 slept, and
    it ends FAILED with [retry_attempts = max_attempts] and the message
    "[code] message" of the failure. *)
Theorem business_failure_exhausts_attempts cp pol tr uuid t0 t1 rec_iccid st
    body es c msg :
  retry_delays_ok pol = true -> (1 <= max_attempts pol)%Z ->
  (forall n, tr n expire_endpoint
               (expire_payload rec_iccid "Unavailable" None None uuid) = TOk body) ->
  body_exec_status body = Ok es ->
  py_get es "status" JNull = Ok (JStr "Failed") ->
  failure_details es = Ok (c, msg) -> c <> "8.2.1/3.3" ->
  exists r,
    process_record cp pol tr uuid t0 t1 rec_iccid st =
      (Ok r, mk_st (calls st + Z.to_nat (max_attempts pol))
                   (app (delays_from pol 0 (Z.to_nat (max_attempts pol) - 1))
                        (sleeps st))) /\
    status r = "FAILED" /\ retry_attempts r = max_attempts pol /\
    error_message r = Some ("[" ++ c ++ "] " ++ py_str msg).
Proof.
  intros Hok Hm Htr Hes Hst Hfd Hc.
  destruct (business_failure_loop cp pol tr uuid t0 t1 rec_iccid body es c msg
              Hok Htr Hes Hst Hfd Hc (Z.to_nat (max_attempts pol - 1)) 1
              (initial_result rec_iccid) st ltac:(lia) ltac:(lia))
    as (r' & E & _ & Hs & Ha & He).
  unfold process_record.
  replace (Z.to_nat (max_attempts pol)) with (S (Z.to_nat (max_attempts pol - 1)))
    by lia.
  rewrite (bind_ok _ _ _ _ _ E). exists r'. split.
  - replace (S (Z.to_nat (max_attempts pol - 1)) - 1)%nat
      with (Z.to_nat (max_attempts pol - 1)) by lia.
    reflexivity.
  - auto.
Qed.

(** ** Deduplication *)

Lemma in_rev_iff {A} (l : list A) x : In x (rev l) <-> In x l.
Proof. symmetry. apply in_rev. Qed.

Lemma nodup_rev_snoc (l : list string) x :
  rev (nodup string_dec (rev (app l [x]))) =
  if in_dec string_dec x l then rev (nodup string_dec (rev l))
  else app (rev (nodup string_dec (rev l))) [x].
Proof.
  rewrite rev_unit. cbn [nodup].
  destruct (in_dec string_dec x (rev l)) as [H|H];
    destruct (in_dec string_dec x l) as [H'|H']; try reflexivity.
  - exfalso; apply H', in_rev_iff, H.
  - exfalso; apply H, in_rev_iff, H'.
Qed.

Lemma existsb_eqb_in k (l : list string) :
  existsb (String.eqb k) l = true <-> In k l.
Proof.
  rewrite existsb_exists. split.
  - intros (y & Hy & E). apply String.eqb_eq in E. subst. exact Hy.
  - intros H. exists k. split; [exact H | apply String.eqb_refl].
Qed.

Lemma dedup_into_keys l :
  forall d p,
  map fst d = rev (nodup string_dec (rev p)) ->
  map (fun kv => ngin_iccid (snd kv)) d = map fst d ->
  map fst (dedup_into d l) = rev (nodup string_dec (rev (app p (map ngin_iccid l)))) /\
  map (fun kv => ngin_iccid (snd kv)) (dedup_into d l) = map fst (dedup_into d l).
Proof.
  induction l as [|x rest IH]; intros d p Hk Hv.
  - simpl. rewrite app_nil_r. auto.
  - cbn [dedup_into map].
    replace (app p (ngin_iccid x :: map ngin_iccid rest))
      with (app (app p [ngin_iccid x]) (map ngin_iccid rest))
      by (rewrite <- app_assoc; reflexivity).
    apply IH.
    + rewrite nodup_rev_snoc.
      destruct (existsb (String.eqb (ngin_iccid x)) (map fst d)) eqn:E.
      * apply existsb_eqb_in in E. rewrite Hk in E.
        rewrite in_rev_iff, nodup_In, in_rev_iff in E.
        destruct (in_dec string_dec (ngin_iccid x) p); [exact Hk | contradiction].
      * destruct (in_dec string_dec (ngin_iccid x) p) as [I|I].
        -- exfalso. rewrite <- (in_rev_iff p), <- (nodup_In string_dec), <- in_rev_iff in I.
           rewrite <- Hk in I. apply existsb_eqb_in in I. congruence.
        -- rewrite map_app, Hk. reflexivity.
    + destruct (existsb (String.eqb (ngin_iccid x)) (map fst d)); [exact Hv|].
      rewrite !map_app, Hv. reflexivity.
Qed.

Lemma unique_records_iccids l :
  map ngin_iccid (unique_records l) =
  rev (nodup string_dec (rev (map ngin_iccid l))).
Proof.
  destruct (dedup_into_keys l [] [] eq_refl eq_refl) as [Hk Hv].
  unfold unique_records. rewrite map_map, Hv, Hk. reflexivity.
Qed.


(** ** [_filter_deactivations] and [_process_file] *)

Lemma is_esim_not_bound rg s : is_esim rg (Some s) <> LoopBound.
Proof.
  destruct (is_esim_cases rg s) as [[b E]|(e & E & _)]; rewrite E; discriminate.
Qed.

Lemma filter_deactivations_not_bound rg recs : filter_deactivations rg recs <> LoopBound.
Proof.
  induction recs as [|x rest IH]; [discriminate|]. cbn [filter_deactivations].
  destruct (is_deactivate (action x)); [|exact IH].
  destruct (is_esim rg (Some (ngin_iccid x))) eqn:E; simpl;
    [| discriminate | exfalso; exact (is_esim_not_bound _ _ E)].
  destruct (filter_deactivations rg rest); simpl; congruence.
Qed.

Lemma filter_deactivations_nil rg recs :
  (forall r, In r recs -> is_deactivate (action r) = true ->
             is_esim rg (Some (ngin_iccid r)) = Ok false) ->
  filter_deactivations rg recs = Ok [].
Proof.
  induction recs as [|x rest IH]; intros H; [reflexivity|]. cbn [filter_deactivations].
  rewrite IH by (intros r I; apply H; right; exact I).
  destruct (is_deactivate (action x)) eqn:D; [|reflexivity].
  rewrite (H x (or_introl eq_refl) D). reflexivity.
Qed.

Lemma filter_deactivations_raise rg recs r e :
  In r recs -> is_deactivate (action r) = true ->
  is_esim rg (Some (ngin_iccid r)) = Raise e ->
  exists e', filter_deactivations rg recs = Raise e'.
Proof.
  intros I D E. induction recs as [|x rest IH]; [destruct I|]. cbn [filter_deactivations].
  destruct I as [<-|I].
  - rewrite D, E. eexists; reflexivity.
  - destruct (IH I) as [e' E']. rewrite E'.
    destruct (is_deactivate (action x)); [|eauto].
    destruct (is_esim rg (Some (ngin_iccid x))) eqn:E2; simpl; eauto.
    exfalso; exact (is_esim_not_bound _ _ E2).
Qed.

Lemma file_verdict_invalids invs thr :
  file_verdict (map invalid_result invs) thr = true.
Proof.
  unfold file_verdict.
  replace (filter (status_in ["SUCCESS"; "FAILED"]) (map invalid_result invs)) with
    (@nil ProcessingResult); [reflexivity|].
  induction invs as [|x rest IH]; [reflexivity|]. simpl. exact IH.
Qed.

Lemma process_xml_file_raise doc e :
  parse_file doc = Raise e -> process_xml_file doc = ([], []).
Proof. intros H. unfold process_xml_file. rewrite H. reflexivity. Qed.

(** When [parse_file] raises (the file is not well-formed XML or has
    no items), [_process_file] returns success with no results, without any
    call or wait. *)
Theorem process_file_unparsed_success cp pol tr uuid t0 t1 rg bs rate thr doc e st :
  parse_file doc = Raise e ->
  process_file cp pol tr uuid t0 t1 rg bs rate thr doc st = (Ok (true, []), st).
Proof.
  intros H. unfold process_file. rewrite (process_xml_file_raise doc e H). reflexivity.
Qed.

(** When no parsed record is a DEACTIVATE action whose ICCID
    [is_esim] accepts or raises on, [_process_file] returns success with
    only the results of the invalid items, without any call or wait. *)
Theorem process_file_no_deactivation cp pol tr uuid t0 t1 rg bs rate thr doc st :
  (forall r, In r (fst (process_xml_file doc)) -> is_deactivate (action r) = true ->
             is_esim rg (Some (ngin_iccid r)) = Ok false) ->
  process_file cp pol tr uuid t0 t1 rg bs rate thr doc st =
  (Ok (true, map invalid_result (snd (process_xml_file doc))), st).
Proof.
  unfold process_file. destruct (process_xml_file doc) as [recs invs]. simpl.
  intros H. rewrite (filter_deactivations_nil rg recs H). reflexivity.
Qed.

(** When [is_esim] raises on the ICCID of a DEACTIVATE record,
    [_process_file] returns failure with only the results of the invalid
    items, without any call or wait. *)
Theorem process_file_range_error cp pol tr uuid t0 t1 rg bs rate thr doc st r e :
  In r (fst (process_xml_file doc)) -> is_deactivate (action r) = true ->
  is_esim rg (Some (ngin_iccid r)) = Raise e ->
  process_file cp pol tr uuid t0 t1 rg bs rate thr doc st =
  (Ok (false, map invalid_result (snd (process_xml_file doc))), st).
Proof.
  unfold process_file. destruct (process_xml_file doc) as [recs invs]. simpl.
  intros I D E. destruct (filter_deactivations_raise rg recs r e I D E) as [e' E'].
  rewrite E'. reflexivity.
Qed.

(** When there are deactivations to process, a [batch_size] of 0
    makes [_process_file] return failure and a negative one success, with
    only the results of the invalid items and without any call or wait. *)
Theorem process_file_batch_size_nonpos cp pol tr uuid t0 t1 rg bs rate thr doc st deacts :
  filter_deactivations rg (fst (process_xml_file doc)) = Ok deacts -> deacts <> [] ->
  ((bs = 0)%Z ->
   process_file cp pol tr uuid t0 t1 rg bs rate thr doc st =
   (Ok (false, map invalid_result (snd (process_xml_file doc))), st)) /\
  ((bs < 0)%Z ->
   process_file cp pol tr uuid t0 t1 rg bs rate thr doc st =
   (Ok (true, map invalid_result (snd (process_xml_file doc))), st)).
Proof.
  unfold process_file. destruct (process_xml_file doc) as [recs invs]. simpl.
  intros F N. rewrite F. destruct deacts as [|d ds]; [congruence|].
  split; intros Hbs.
  - subst bs. reflexivity.
  - unfold py_range, range_len.
    replace (bs =? 0)%Z with false by lia.
    replace (0 <? bs)%Z with false by lia.
    replace (Z.of_nat (length (unique_records (d :: ds))) <? 0)%Z with false
      by (symmetry; apply Z.ltb_ge; lia).
    cbn - [file_verdict]. rewrite file_verdict_invalids. reflexivity.
Qed.

Lemma batch_loop_prefix cp pol tr uuid t0 t1 bs rate l :
  forall idx fr st fr' o st',
  batch_loop cp pol tr uuid t0 t1 bs rate l idx fr st = (Ok (fr', o), st') ->
  exists rest, fr' = app fr rest.
Proof.
  induction idx as [|i idx IH]; intros fr st fr' o st' H.
  - cbn in H. injection H as <- _ _. exists []. symmetry; apply app_nil_r.
  - cbn [batch_loop] in H. unfold bind at 1 in H.
    destruct (try_ _ st) as [x st1]. destruct x as [x|e|]; try discriminate.
    destruct x as [brs|e|]; try discriminate.
    + destruct (i + bs <? Z.of_nat (length l))%Z.
      * unfold bind in H. destruct (try_ (py_sleep rate) st1) as [y st2].
        destruct y as [y|e|]; try discriminate.
        destruct y as [y|e|]; try discriminate.
        -- destruct (IH _ _ _ _ _ H) as [rest E]. exists (app brs rest).
           rewrite E, app_assoc. reflexivity.
        -- cbn in H. injection H as <- _ _. exists brs. reflexivity.
      * destruct (IH _ _ _ _ _ H) as [rest E]. exists (app brs rest).
        rewrite E, app_assoc. reflexivity.
    + cbn in H. injection H as <- _ _. exists []. symmetry; apply app_nil_r.
Qed.

Lemma process_file_prefix cp pol tr uuid t0 t1 rg bs rate thr doc st b results st' :
  process_file cp pol tr uuid t0 t1 rg bs rate thr doc st = (Ok (b, results), st') ->
  exists rest, results = app (map invalid_result (snd (process_xml_file doc))) rest.
Proof.
  unfold process_file. destruct (process_xml_file doc) as [recs invs]. cbn [snd].
  assert (N : forall x : list ProcessingResult, x = app x []) by (intros; symmetry; apply app_nil_r).
  destruct (filter_deactivations rg recs) as [[|d ds]|e|];
    try (cbn; intros H; injection H as _ <- _; eauto; fail); try discriminate.
  destruct (py_range 0 _ bs) as [idx|e|];
    try (cbn; intros H; injection H as _ <- _; eauto; fail); try discriminate.
  unfold bind. destruct (batch_loop _ _ _ _ _ _ _ _ _ idx _ st) as [[[fr o]|e|] st1] eqn:B;
    try discriminate.
  destruct (batch_loop_prefix _ _ _ _ _ _ _ _ _ _ _ _ _ _ _ B) as [rest ->].
  destruct o; cbn; intros H; injection H as _ <- _; eauto.
Qed.

(** The results of [_process_file] always start with the results of
    the invalid items, in the order [parse_file] reports them. *)
Theorem process_file_invalid_first cp pol tr uuid t0 t1 rg bs rate thr doc st b results st' :
  process_file cp pol tr uuid t0 t1 rg bs rate thr doc st = (Ok (b, results), st') ->
  exists rest, results = app (map invalid_result (snd (process_xml_file doc))) rest.
Proof. apply process_file_prefix. Qed.

Lemma parse_items_invalid items it bad :
  In it items -> parse_item it = inr bad -> In bad (snd (parse_items items)).
Proof.
  induction items as [|x rest IH]; intros I P; [destruct I|]. cbn [parse_items].
  destruct (parse_items rest) as [valid invalid] eqn:E. cbn [snd] in IH.
  destruct I as [->|I].
  - rewrite P. left; reflexivity.
  - destruct (parse_item x); [|right]; apply IH; assumption.
Qed.

Lemma process_xml_file_items items :
  items <> [] -> process_xml_file (Some items) = parse_items items.
Proof. destruct items; [congruence|reflexivity]. Qed.

(** An invalid item without a lowercase [iccid] tag is reported by
    [_process_file] as an INVALID result with ICCID "UNKNOWN" and the
    reason [parse_file] gave. *)
Theorem process_file_unknown_iccid cp pol tr uuid t0 t1 rg bs rate thr items it reason
    st b results st' :
  In it items -> parse_item it = inr (it, reason) -> raw_get "iccid" it = None ->
  process_file cp pol tr uuid t0 t1 rg bs rate thr (Some items) st = (Ok (b, results), st') ->
  In (mk_pr "UNKNOWN" "INVALID" None (Some reason) 0 None) results.
Proof.
  intros I P G H.
  destruct (process_file_prefix _ _ _ _ _ _ _ _ _ _ _ _ _ _ _ H) as [rest ->].
  apply in_or_app. left.
  rewrite process_xml_file_items by (intros ->; destruct I).
  replace (mk_pr "UNKNOWN" "INVALID" None (Some reason) 0 None) with
    (invalid_result (it, reason)) by (unfold invalid_result; cbn [fst snd]; rewrite G; reflexivity).
  apply in_map, (parse_items_invalid items it); assumption.
Qed.

Lemma firstn_plus {A} m p (L : list A) :
  firstn (m + p) L = app (firstn m L) (firstn p (skipn m L)).
Proof.
  revert L; induction m as [|m IH]; intros L; [reflexivity|].
  destruct L as [|x L]; [destruct p; reflexivity|].
  cbn. rewrite IH. reflexivity.
Qed.

Lemma slice_end_mono n bs k k' :
  (0 < bs)%Z -> (k <= k')%nat -> (slice_end n bs k <= slice_end n bs k')%nat.
Proof. intros Hbs Hk. unfold slice_end. nia. Qed.

Lemma slice_at {A} (l : list A) bs k :
  (0 < bs)%Z ->
  py_slice l (0 + Z.of_nat k * bs) (0 + Z.of_nat k * bs + bs) =
  firstn (slice_end (length l) bs (S k) - slice_end (length l) bs k)
    (skipn (slice_end (length l) bs k) l).
Proof.
  intros Hbs. unfold py_slice, slice_index, slice_end.
  replace (0 + Z.of_nat k * bs <? 0)%Z with false by (symmetry; apply Z.ltb_ge; nia).
  replace (0 + Z.of_nat k * bs + bs <? 0)%Z with false by (symmetry; apply Z.ltb_ge; nia).
  replace (0 + Z.of_nat k * bs + bs)%Z with (Z.of_nat (S k) * bs)%Z by lia.
  rewrite Z.add_0_l. reflexivity.
Qed.

Lemma slices_seq {A} (l : list A) bs :
  (0 < bs)%Z ->
  forall c j,
  concat (map (fun i => py_slice l i (i + bs))
            (map (fun k => 0 + Z.of_nat k * bs)%Z (seq j c))) =
  firstn (slice_end (length l) bs (j + c) - slice_end (length l) bs j)
    (skipn (slice_end (length l) bs j) l).
Proof.
  intros Hbs c; induction c as [|c IH]; intros j.
  - rewrite Nat.add_0_r, Nat.sub_diag. reflexivity.
  - cbn [seq map concat]. rewrite slice_at by exact Hbs. rewrite IH.
    pose proof (slice_end_mono (length l) bs j (S j) Hbs ltac:(lia)).
    pose proof (slice_end_mono (length l) bs (S j) (S j + c) Hbs ltac:(lia)).
    rewrite <- (Nat.sub_add (slice_end (length l) bs j) (slice_end (length l) bs (S j)))
      at 3 by lia.
    rewrite <- skipn_skipn, <- firstn_plus.
    f_equal. replace (j + S c)%nat with (S j + c)%nat by lia. lia.
Qed.

Lemma slices_concat {A} (l : list A) bs :
  (0 < bs)%Z ->
  concat (map (fun i => py_slice l i (i + bs))
            (map (fun k => 0 + Z.of_nat k * bs)%Z
               (seq 0 (Z.to_nat (range_len 0 (Z.of_nat (length l)) bs))))) = l.
Proof.
  intros Hbs. rewrite slices_seq by exact Hbs. cbn [Nat.add].
  assert (E0 : slice_end (length l) bs 0 = 0%nat) by (unfold slice_end; lia).
  assert (EN : slice_end (length l) bs (Z.to_nat (range_len 0 (Z.of_nat (length l)) bs))
               = length l).
  { unfold slice_end, range_len.
    replace (0 <? bs)%Z with true by (symmetry; apply Z.ltb_lt; lia).
    destruct (0 <? Z.of_nat (length l))%Z eqn:Hn.
    - apply Z.ltb_lt in Hn.
      pose proof (Z.div_mod (Z.of_nat (length l) - 0 + bs - 1) bs ltac:(lia)).
      pose proof (Z.mod_pos_bound (Z.of_nat (length l) - 0 + bs - 1) bs Hbs).
      assert (0 <= (Z.of_nat (length l) - 0 + bs - 1) / bs)%Z
        by (apply Z.div_pos; lia).
      nia.
    - apply Z.ltb_ge in Hn. lia. }
  rewrite E0, EN, Nat.sub_0_r, skipn_0. apply firstn_all.
Qed.

Lemma try_sleep_ok d st :
  sleepable d = true -> try_ (py_sleep d) st = (Ok (Ok tt), mk_st (calls st) (d :: sleeps st)).
Proof. intros H. unfold try_. rewrite (py_sleep_ok d st H). reflexivity. Qed.

Lemma batch_loop_spec cp pol tr uuid t0 t1 bs rate l :
  sleepable rate = true ->
  forall idx fr st,
  exists rs st',
    batch_loop cp pol tr uuid t0 t1 bs rate l idx fr st = (Ok (app fr rs, None), st') /\
    map iccid rs = map ngin_iccid (concat (map (fun i => py_slice l i (i + bs)) idx)) /\
    (calls st <= calls st')%nat /\
    ((1 <= max_attempts pol)%Z ->
     Forall (fun r => status r = "SUCCESS" \/ status r = "FAILED") rs).
Proof.
  intros Hr idx; induction idx as [|i idx IH]; intros fr st.
  - exists [], st. rewrite app_nil_r. split; [reflexivity|]. split; [reflexivity|].
    split; [lia|]. constructor.
  - destruct (process_batch_spec cp pol tr uuid t0 t1
                (map ngin_iccid (py_slice l i (i + bs))) st)
      as (brs & st1 & E1 & Hi1 & Hc1 & Hm1).
    cbn [batch_loop].
    rewrite (bind_ok _ _ _ _ _ (try_ok _ st (Ok brs) st1 ltac:(discriminate) E1)).
    cbv beta match.
    assert (K : forall st2, calls st2 = calls st1 ->
              exists rs st',
                batch_loop cp pol tr uuid t0 t1 bs rate l idx (app fr brs) st2 =
                (Ok (app fr rs, None), st') /\
                map iccid rs = map ngin_iccid (concat (map (fun i => py_slice l i (i + bs)) (i :: idx))) /\
                (calls st <= calls st')%nat /\
                ((1 <= max_attempts pol)%Z ->
                 Forall (fun r => status r = "SUCCESS" \/ status r = "FAILED") rs)).
    { intros st2 Hc2.
      destruct (IH (app fr brs) st2) as (rs & st' & E & Hi & Hc & Hm).
      exists (app brs rs), st'. rewrite app_assoc. split; [exact E|].
      split; [cbn [map concat]; rewrite !map_app, Hi1, Hi; reflexivity|].
      split; [lia|].
      intros Hmax. apply Forall_app. auto. }
    destruct (i + bs <? Z.of_nat (length l))%Z.
    + rewrite (bind_ok _ _ _ _ _ (try_sleep_ok rate st1 Hr)). cbv beta match.
      apply K. reflexivity.
    + apply K. reflexivity.
Qed.

(** With [batch_size > 0], a [rate_limit_sleep] that [time.sleep]
    accepts (non-negative and below about 9.22e9 seconds) and at least one
    deactivation,
    [_process_file] processes each ICCID of the deactivations once, in the
    order of its first occurrence, after the invalid items' results, and
    returns the verdict of [file_verdict]; with [max_attempts >= 1] every
    processed record ends SUCCESS or FAILED. *)
Theorem process_file_unique_iccids cp pol tr uuid t0 t1 rg bs rate thr doc st deacts :
  (0 < bs)%Z -> sleepable rate = true ->
  filter_deactivations rg (fst (process_xml_file doc)) = Ok deacts -> deacts <> [] ->
  exists rs st',
    process_file cp pol tr uuid t0 t1 rg bs rate thr doc st =
    (Ok (file_verdict (app (map invalid_result (snd (process_xml_file doc))) rs) thr,
         app (map invalid_result (snd (process_xml_file doc))) rs), st') /\
    map iccid rs = rev (nodup string_dec (rev (map ngin_iccid deacts))) /\
    ((1 <= max_attempts pol)%Z ->
     Forall (fun r => status r = "SUCCESS" \/ status r = "FAILED") rs).
Proof.
  intros Hbs Hr. unfold process_file.
  destruct (process_xml_file doc) as [recs invs]. cbn [fst snd].
  intros F N. rewrite F. destruct deacts as [|d ds]; [congruence|].
  unfold py_range. replace (bs =? 0)%Z with false by (symmetry; apply Z.eqb_neq; lia).
  cbv beta match.
  destruct (batch_loop_spec cp pol tr uuid t0 t1 bs rate (unique_records (d :: ds)) Hr
              (map (fun k => 0 + Z.of_nat k * bs)%Z
                 (seq 0 (Z.to_nat (range_len 0 (Z.of_nat (length (unique_records (d :: ds)))) bs))))
              (map invalid_result invs) st)
    as (rs & st' & E & Hi & _ & Hm).
  rewrite (bind_ok _ _ _ _ _ E). exists rs, st'. split; [reflexivity|]. split; [|exact Hm].
  rewrite Hi, slices_concat by exact Hbs. apply unique_records_iccids.
Qed.








Section UniformBatches.
Variables (cp pol : RetryPolicy) (tr : Transport) (uuid t0 t1 : string).
Variables (bs : Z) (rate : Q) (f : string -> ProcessingResult) (w : nat).
Hypothesis Hbs : (0 < bs)%Z.
Hypothesis Hr : sleepable rate = true.
Hypothesis HP : forall batch st,
  process_batch cp pol tr uuid t0 t1 batch st =
  (Ok (map f batch), mk_st (calls st + w * length batch) (sleeps st)).

End UniformBatches.






Lemma parse_item_valid raw r :
  parse_item raw = inl r ->
  py_isdigit (ngin_iccid r) = true /\ (19 <= String.length (ngin_iccid r) <= 22)%nat.
Proof.
  unfold parse_item.
  destruct (py_or (py_or (raw_get "ICCID" raw) (raw_get "iccid" raw)) (raw_get "Iccid" raw))
    as [i|]; [|discriminate].
  destruct (String.eqb i ""); [discriminate|].
  destruct (py_isdigit (clean_iccid i)) eqn:D; [|discriminate].
  destruct ((String.length (clean_iccid i) <? 19)%nat || (22 <? String.length (clean_iccid i))%nat)
    eqn:L; [discriminate|].
  intros H. injection H as <-. cbn [ngin_iccid]. split; [exact D|].
  apply orb_false_iff in L as [L1 L2].
  apply Nat.ltb_ge in L1. apply Nat.ltb_ge in L2. lia.
Qed.

Lemma parse_item_invalid_raw raw bad : parse_item raw = inr bad -> fst bad = raw.
Proof.
  unfold parse_item.
  destruct (py_or (py_or (raw_get "ICCID" raw) (raw_get "iccid" raw)) (raw_get "Iccid" raw))
    as [i|]; [|intros H; injection H as <-; reflexivity].
  destruct (String.eqb i ""); [intros H; injection H as <-; reflexivity|].
  destruct (negb (py_isdigit (clean_iccid i))); [intros H; injection H as <-; reflexivity|].
  destruct ((String.length (clean_iccid i) <? 19)%nat || (22 <? String.length (clean_iccid i))%nat);
    [intros H; injection H as <-; reflexivity | discriminate].
Qed.

Lemma parse_items_spec items :
  (length (fst (parse_items items)) + length (snd (parse_items items)) = length items)%nat /\
  Forall (fun r => py_isdigit (ngin_iccid r) = true /\
                   (19 <= String.length (ngin_iccid r) <= 22)%nat) (fst (parse_items items)) /\
  Forall (fun bad => In (fst bad) items) (snd (parse_items items)).
Proof.
  induction items as [|it rest IH]; [repeat constructor|]. cbn [parse_items].
  destruct (parse_items rest) as [valid invalid]. cbn [fst snd] in IH |- *.
  destruct IH as (Hl & Hv & Hi).
  destruct (parse_item it) as [r|bad] eqn:P; cbn [fst snd length].
  - split; [lia|]. split.
    + constructor; [exact (parse_item_valid it r P) | exact Hv].
    + eapply Forall_impl; [|exact Hi]. intros b Hb; right; exact Hb.
  - split; [lia|]. split; [exact Hv|]. constructor.
    + left. symmetry. exact (parse_item_invalid_raw it bad P).
    + eapply Forall_impl; [|exact Hi]. intros b Hb; right; exact Hb.
Qed.

(** When [parse_file] returns, the file had items, each of them is
    either a record or an invalid item (the two counts add up to the
    number of items), every record's ICCID passes [str.isdigit] and has
    19 to 22 characters, and every invalid item is one of the file's. *)
Theorem parse_file_partition doc valid invalid :
  parse_file doc = Ok (valid, invalid) ->
  exists items, doc = Some items /\ items <> [] /\
    (length valid + length invalid = length items)%nat /\
    Forall (fun r => py_isdigit (ngin_iccid r) = true /\
                     (19 <= String.length (ngin_iccid r) <= 22)%nat) valid /\
    Forall (fun bad => In (fst bad) items) invalid.
Proof.
  destruct doc as [[|it rest]|]; cbn; try discriminate.
  intros H. injection H as H. exists (it :: rest).
  split; [reflexivity|]. split; [discriminate|].
  pose proof (parse_items_spec (it :: rest)) as S. cbn [parse_items] in S |- *.
  rewrite H in S. exact S.
Qed.

(** ** Witnesses *)

Lemma luhn_check_digit_witness :
  exists d, is_ascii_digit d = true /\ luhn_valid ("7992739871" ++ String d "") = Ok true /\
  forall d', is_ascii_digit d' = true -> luhn_valid ("7992739871" ++ String d' "") = Ok true ->
  d' = d.
Proof. apply (luhn_check_digit "7992739871"). reflexivity. Defined.

Lemma is_esim_raises_only_on_superscripts_witness :
  exc_cls (mk_exc ValueError "invalid literal for int() with base 10") = ValueError /\
  py_isdigit (py_strip ("89238010000101567890" ++ String sup2 "")) = true /\
  all_chars is_ascii_digit (py_strip ("89238010000101567890" ++ String sup2 "")) = false /\
  String.length (py_strip ("89238010000101567890" ++ String sup2 "")) =
  S (String.length (range_start_s default_range)).
Proof.
  apply (is_esim_raises_only_on_superscripts default_range
           ("89238010000101567890" ++ String sup2 "")
           (mk_exc ValueError "invalid literal for int() with base 10")).
  vm_compute. reflexivity.
Defined.

Lemma expire_order_trace_witness :
  exists k,
    calls (mk_st 3 [10; 5]) =
      (calls (mk_st 0 []) + S k)%nat /\
    (Z.of_nat (S k) <= Z.max 1 (max_attempts default_policy))%Z /\
    py_get (expire_failed "89238010000101567890" 3 "API request failed" "t0" "t1")
      "attempts" JNull = Ok (JNum (Z.of_nat (S k))) /\
    sleeps (mk_st 3 [10; 5]) =
      app (delays_from default_policy 0 k) (sleeps (mk_st 0 [])) /\
    (forall j, (j < k)%nat ->
       exists exc, always_raise "API request failed" (calls (mk_st 0 []) + j)%nat
                     expire_endpoint
                     (expire_payload "89238010000101567890" "Unavailable" None None "u")
                   = TExc exc) /\
    ((exists body,
        expire_failed "89238010000101567890" 3 "API request failed" "t0" "t1" =
          expire_success "89238010000101567890" (Z.of_nat (S k)) body "t0" "t1" /\
        always_raise "API request failed" (calls (mk_st 0 []) + k)%nat expire_endpoint
          (expire_payload "89238010000101567890" "Unavailable" None None "u") = TOk body) \/
     (exists exc,
        expire_failed "89238010000101567890" 3 "API request failed" "t0" "t1" =
          expire_failed "89238010000101567890" (Z.of_nat (S k)) (exc_msg exc) "t0" "t1" /\
        always_raise "API request failed" (calls (mk_st 0 []) + k)%nat expire_endpoint
          (expire_payload "89238010000101567890" "Unavailable" None None "u") = TExc exc)).
Proof.
  apply (expire_order_trace default_policy (always_raise "API request failed")
           "89238010000101567890" "Unavailable" None None "u" "t0" "t1" (mk_st 0 [])).
  vm_compute. reflexivity.
Defined.

Lemma expire_order_all_calls_fail_witness :
  exists exc,
    expire_order default_policy (always_raise "API request failed")
      "89238010000101567890" "Unavailable" None None "u" "t0" "t1" (mk_st 0 []) =
      (Ok (expire_failed "89238010000101567890" (Z.max 1 (max_attempts default_policy))
             (exc_msg exc) "t0" "t1"),
       mk_st (calls (mk_st 0 []) + Z.to_nat (Z.max 1 (max_attempts default_policy)))%nat
             (app (delays_from default_policy 0
                     (Z.to_nat (Z.max 1 (max_attempts default_policy)) - 1))
                  (sleeps (mk_st 0 [])))) /\
    always_raise "API request failed"
      (calls (mk_st 0 []) + Z.to_nat (Z.max 1 (max_attempts default_policy)) - 1)%nat
      expire_endpoint
      (expire_payload "89238010000101567890" "Unavailable" None None "u") = TExc exc.
Proof.
  apply (expire_order_all_calls_fail default_policy (always_raise "API request failed")
           "89238010000101567890" "Unavailable" None None "u" "t0" "t1" (mk_st 0 [])).
  - vm_compute. reflexivity.
  - intros n. eexists. reflexivity.
Defined.

Lemma process_record_outcome_witness :
  exists r st',
    process_record default_policy default_policy (fun _ _ _ => TOk refused_body)
      "u" "t0" "t1" "89238010000101567890" (mk_st 0 []) = (Ok r, st') /\
    iccid r = "89238010000101567890" /\ (status r = "SUCCESS" \/ status r = "FAILED") /\
    (1 <= retry_attempts r <= max_attempts default_policy)%Z /\
    (calls (mk_st 0 []) < calls st')%nat.
Proof.
  apply (process_record_outcome default_policy default_policy
           (fun _ _ _ => TOk refused_body) "u" "t0" "t1" "89238010000101567890"
           (mk_st 0 [])).
  - vm_compute. reflexivity.
  - vm_compute. discriminate.
Defined.

Lemma business_failure_exhausts_attempts_witness :
  exists r,
    process_record default_policy default_policy (fun _ _ _ => TOk refused_body)
      "u" "t0" "t1" "89238010000101567890" (mk_st 0 []) =
      (Ok r, mk_st (calls (mk_st 0 []) + Z.to_nat (max_attempts default_policy))
                   (app (delays_from default_policy 0
                           (Z.to_nat (max_attempts default_policy) - 1))
                        (sleeps (mk_st 0 [])))) /\
    status r = "FAILED" /\ retry_attempts r = max_attempts default_policy /\
    error_message r = Some ("[" ++ "8.1.1/2.1" ++ "] " ++ py_str (JStr "Refused")).
Proof.
  apply (business_failure_exhausts_attempts default_policy default_policy
           (fun _ _ _ => TOk refused_body) "u" "t0" "t1" "89238010000101567890"
           (mk_st 0 []) refused_body
           (JObj [("status", JStr "Failed");
                  ("statusCodeData",
                   JObj [("subjectCode", JStr "8.1.1"); ("reasonCode", JStr "2.1");
                         ("message", JStr "Refused")])])
           "8.1.1/2.1" (JStr "Refused")).
  - vm_compute. reflexivity.
  - vm_compute. discriminate.
  - intros n. reflexivity.
  - reflexivity.
  - reflexivity.
  - reflexivity.
  - discriminate.
Defined.

Lemma process_file_unparsed_success_witness :
  process_file default_policy default_policy (fun _ _ _ => TOk success_body)
    "u" "t0" "t1" default_range 100 1 (95 # 100) None (mk_st 0 []) =
  (Ok (true, []), mk_st 0 []).
Proof.
  apply (process_file_unparsed_success default_policy default_policy
           (fun _ _ _ => TOk success_body) "u" "t0" "t1" default_range 100 1 (95 # 100)
           None (mk_exc OtherException "Malformed XML")).
  reflexivity.
Defined.

Lemma process_file_no_deactivation_witness :
  process_file default_policy default_policy (fun _ _ _ => TOk success_body)
    "u" "t0" "t1" default_range 100 1 (95 # 100) (Some (skipn 3 sample_items)) (mk_st 0 []) =
  (Ok (true, map invalid_result (snd (process_xml_file (Some (skipn 3 sample_items))))),
   mk_st 0 []).
Proof.
  apply (process_file_no_deactivation default_policy default_policy
           (fun _ _ _ => TOk success_body) "u" "t0" "t1" default_range 100 1 (95 # 100)
           (Some (skipn 3 sample_items))).
  intros r I D. vm_compute in I.
  destruct I as [<-|[<-|[]]]; vm_compute in D |- *; [reflexivity | discriminate].
Defined.

Lemma process_file_range_error_witness :
  process_file default_policy default_policy (fun _ _ _ => TOk success_body)
    "u" "t0" "t1" default_range 100 1 (95 # 100)
    (Some ([("ICCID", "89238010000101567890" ++ String sup2 ""); ("Action", "DEACTIVATE")]
           :: sample_items)) (mk_st 0 []) =
  (Ok (false, map invalid_result
                (snd (process_xml_file
                        (Some ([("ICCID", "89238010000101567890" ++ String sup2 "");
                                ("Action", "DEACTIVATE")] :: sample_items))))),
   mk_st 0 []).
Proof.
  apply (process_file_range_error default_policy default_policy
           (fun _ _ _ => TOk success_body) "u" "t0" "t1" default_range 100 1 (95 # 100)
           (Some ([("ICCID", "89238010000101567890" ++ String sup2 "");
                   ("Action", "DEACTIVATE")] :: sample_items)) (mk_st 0 [])
           (mk_ngin ("89238010000101567890" ++ String sup2 "") (Some "DEACTIVATE"))
           (mk_exc ValueError "invalid literal for int() with base 10")).
  - vm_compute. left. reflexivity.
  - vm_compute. reflexivity.
  - vm_compute. reflexivity.
Defined.

Lemma process_file_batch_size_nonpos_witness :
  process_file default_policy default_policy (fun _ _ _ => TOk success_body)
    "u" "t0" "t1" default_range 0 1 (95 # 100) (Some sample_items) (mk_st 0 []) =
  (Ok (false, map invalid_result (snd (process_xml_file (Some sample_items)))), mk_st 0 []) /\
  process_file default_policy default_policy (fun _ _ _ => TOk success_body)
    "u" "t0" "t1" default_range (-1) 1 (95 # 100) (Some sample_items) (mk_st 0 []) =
  (Ok (true, map invalid_result (snd (process_xml_file (Some sample_items)))), mk_st 0 []).
Proof.
  split.
  - apply (proj1 (process_file_batch_size_nonpos default_policy default_policy
                    (fun _ _ _ => TOk success_body) "u" "t0" "t1" default_range 0 1
                    (95 # 100) (Some sample_items) (mk_st 0 [])
                    (firstn 3 (fst (process_xml_file (Some sample_items))))
                    ltac:(vm_compute; reflexivity) ltac:(vm_compute; discriminate))).
    reflexivity.
  - apply (proj2 (process_file_batch_size_nonpos default_policy default_policy
                    (fun _ _ _ => TOk success_body) "u" "t0" "t1" default_range (-1) 1
                    (95 # 100) (Some sample_items) (mk_st 0 [])
                    (firstn 3 (fst (process_xml_file (Some sample_items))))
                    ltac:(vm_compute; reflexivity) ltac:(vm_compute; discriminate))).
    reflexivity.
Defined.

Lemma process_file_invalid_first_witness :
  exists rest,
    app (map invalid_result (snd (process_xml_file (Some sample_items))))
      (map (fun x => deactivated_result x success_body "t0" "t1")
         ["89238010000101567890"; "89238010000101123456"]) =
    app (map invalid_result (snd (process_xml_file (Some sample_items)))) rest.
Proof.
  apply (process_file_invalid_first default_policy default_policy
           (fun _ _ _ => TOk success_body) "u" "t0" "t1" default_range 1 1 (95 # 100)
           (Some sample_items) (mk_st 0 []) true _ (mk_st 2 [1])).
  vm_compute. reflexivity.
Defined.

Lemma process_file_unknown_iccid_witness :
  In (mk_pr "UNKNOWN" "INVALID" None (Some "ICCID not numeric") 0 None)
    (app (map invalid_result (snd (process_xml_file (Some sample_items))))
       (map (fun x => deactivated_result x success_body "t0" "t1")
          ["89238010000101567890"; "89238010000101123456"])).
Proof.
  apply (process_file_unknown_iccid default_policy default_policy
           (fun _ _ _ => TOk success_body) "u" "t0" "t1" default_range 1 1 (95 # 100)
           sample_items [("ICCID", "ABC"); ("Action", "DEACTIVATE")] "ICCID not numeric"
           (mk_st 0 []) true _ (mk_st 2 [1])).
  - vm_compute. right; right; right; right; right; right; left. reflexivity.
  - vm_compute. reflexivity.
  - vm_compute. reflexivity.
  - vm_compute. reflexivity.
Defined.

Lemma process_file_unique_iccids_witness :
  exists rs st',
    process_file default_policy default_policy (always_raise "API request failed")
      "u" "t0" "t1" default_range 1 1 (95 # 100) (Some sample_items) (mk_st 0 []) =
    (Ok (file_verdict (app (map invalid_result (snd (process_xml_file (Some sample_items))))
                         rs) (95 # 100),
         app (map invalid_result (snd (process_xml_file (Some sample_items)))) rs), st') /\
    map iccid rs =
      rev (nodup string_dec
             (rev (map ngin_iccid (firstn 3 (fst (process_xml_file (Some sample_items))))))) /\
    ((1 <= max_attempts default_policy)%Z ->
     Forall (fun r => status r = "SUCCESS" \/ status r = "FAILED") rs).
Proof.
  apply (process_file_unique_iccids default_policy default_policy
           (always_raise "API request failed") "u" "t0" "t1" default_range 1 1 (95 # 100)
           (Some sample_items) (mk_st 0 [])
           (firstn 3 (fst (process_xml_file (Some sample_items))))).
  - lia.
  - vm_compute. reflexivity.
  - vm_compute. reflexivity.
  - vm_compute. discriminate.
Defined.



Lemma parse_file_partition_witness :
  exists items, Some sample_items = Some items /\ items <> [] /\
    (length (fst (parse_items sample_items)) + length (snd (parse_items sample_items))
     = length items)%nat /\
    Forall (fun r => py_isdigit (ngin_iccid r) = true /\
                     (19 <= String.length (ngin_iccid r) <= 22)%nat)
      (fst (parse_items sample_items)) /\
    Forall (fun bad => In (fst bad) items) (snd (parse_items sample_items)).
Proof.
  apply (parse_file_partition (Some sample_items) (fst (parse_items sample_items))
           (snd (parse_items sample_items))).
  reflexivity.
Defined.
